(** * pimple-log-stats: the log-to-table converter of foam-utils

    A shallow embedding of [src/pimple-log-stats.py] (a Python 2 script: it
    calls [self._fin.next()]) and the properties of its output table.

    - [Re]: the fragment of Python's [re] module the seven patterns use.
    - [Py]: Python values, exceptions and the state-and-exception monad.
    - the classes [LogLineRegexp] and [LogItemParser], and [_run]. *)

From Stdlib Require Import ZArith Lia Ascii String List.
From stdpp Require Import base option list strings gmap pretty.

Open Scope string_scope.
Open Scope Z_scope.

(** ** Regular expressions *)

Module Re.

(** The character classes of the patterns: [.] and [\d]. *)
Inductive cls := AnyChar | Digit.

(** One item of a pattern: [^], [$], a literal character, or a capturing
    group around a greedy repetition of a class, [(.+)] and [(\d+)]. *)
Inductive tok := Bol | Eol | Lit (c : ascii) | Group1 (k : cls).

Definition pattern := list tok.

Definition newline : ascii := "010"%char.

Definition is_digit (c : ascii) : bool :=
  (Ascii.leb "0" c && Ascii.leb c "9")%bool.

(** [.] is any character but a newline (no DOTALL flag); [\d] is [0-9]. *)
Definition cls_mem (k : cls) (c : ascii) : bool :=
  match k with
  | AnyChar => negb (Ascii.eqb c newline)
  | Digit => is_digit c
  end.

(** Characters with a special meaning in a pattern. *)
Definition is_meta (c : ascii) : bool :=
  existsb (Ascii.eqb c)
    ["."; "^"; "$"; "*"; "+"; "?"; "{"; "}"; "["; "]"; "\"; "|"; "("; ")"]%char.

(** [re.compile], on the fragment above; [None] is a pattern outside it. *)
Fixpoint compile (s : string) : option pattern :=
  match s with
  | EmptyString => Some []
  | String "(" (String "." (String "+" (String ")" s'))) =>
      option_map (cons (Group1 AnyChar)) (compile s')
  | String "(" (String "\" (String "d" (String "+" (String ")" s')))) =>
      option_map (cons (Group1 Digit)) (compile s')
  | String "^" s' => option_map (cons Bol) (compile s')
  | String "$" s' => option_map (cons Eol) (compile s')
  | String c s' =>
      if is_meta c then None else option_map (cons (Lit c)) (compile s')
  end.

(** The [groups] attribute of a compiled pattern. *)
Fixpoint groups (p : pattern) : nat :=
  match p with
  | [] => 0
  | Group1 _ :: p' => S (groups p')
  | _ :: p' => groups p'
  end.

(** [$] without MULTILINE: the end of the string, or just before a newline
    that ends the string. *)
Definition at_end (s : string) : bool :=
  match s with
  | EmptyString => true
  | String c EmptyString => Ascii.eqb c newline
  | _ => false
  end.

(** Backtracking match of [p] at the head of [s]; [bol] says that [s] is
    the whole subject.  A group tries its longest extent first.  The result
    is the tuple of [groups()]. *)
Fixpoint match_here (p : pattern) (bol : bool) (s : string)
  : option (list string) :=
  match p with
  | [] => Some []
  | Bol :: p' => if bol then match_here p' bol s else None
  | Eol :: p' => if at_end s then match_here p' bol s else None
  | Lit c :: p' =>
      match s with
      | String d s' => if Ascii.eqb c d then match_here p' false s' else None
      | EmptyString => None
      end
  | Group1 k :: p' =>
      match
        (fix grp (s : string) : option (string * list string) :=
           match s with
           | EmptyString => None
           | String c s' =>
               if cls_mem k c then
                 match grp s' with
                 | Some (cap, gs) => Some (String c cap, gs)
                 | None =>
                     match match_here p' false s' with
                     | Some gs => Some (String c EmptyString, gs)
                     | None => None
                     end
                 end
               else None
           end) s
      with
      | Some (cap, gs) => Some (cap :: gs)
      | None => None
      end
  end.

(** [search]: the leftmost start at which the pattern matches. *)
Fixpoint search_from (p : pattern) (bol : bool) (s : string)
  : option (list string) :=
  match match_here p bol s with
  | Some gs => Some gs
  | None =>
      match s with
      | EmptyString => None
      | String _ s' => search_from p false s'
      end
  end.

Definition search (p : pattern) (s : string) : option (list string) :=
  search_from p true s.

End Re.

Definition nl : string := String Re.newline EmptyString.

(** ** Python values, exceptions, and the monad of a mutable object *)

Module Py.

(** The values an attribute of the parser holds: the integer and boolean
    defaults of [__init__] and the strings captured from the log. *)
Inductive val := Int (z : Z) | Bool (b : bool) | Str (s : string).

Inductive exn :=
| EndOfItem | NoMoreItems | StopIteration
| UserWarning | ReError | IOError
| AttributeError | IndexError | TypeError.

#[global] Instance val_eq_dec : EqDecision val.
Proof. solve_decision. Defined.
#[global] Instance exn_eq_dec : EqDecision exn.
Proof. solve_decision. Defined.

(** Truth value of an object, as [if] and [not] take it. *)
Definition truthy (v : val) : bool :=
  match v with
  | Int z => negb (z =? 0)
  | Bool b => b
  | Str s => negb (String.eqb s "")
  end.

(** [str(v)], which is what an empty format spec renders. *)
Definition str (v : val) : string :=
  match v with
  | Int z => pretty z
  | Bool true => "True"
  | Bool false => "False"
  | Str s => s
  end.

(** [v + 1]. *)
Definition add1 (v : val) : exn + val :=
  match v with
  | Int z => inr (Int (z + 1))
  | Bool b => inr (Int ((if b then 1 else 0) + 1))
  | Str _ => inl TypeError
  end.

(** A computation on a mutable object of type [O]: it returns the object
    as it left it, and a value or the exception it raised. *)
Definition M (O A : Type) : Type := O -> O * (exn + A).

Definition ret {O A} (a : A) : M O A := fun o => (o, inr a).
Definition raise {O A} (e : exn) : M O A := fun o => (o, inl e).
Definition bind {O A B} (m : M O A) (k : A -> M O B) : M O B :=
  fun o =>
    match m o with
    | (o', inr a) => k a o'
    | (o', inl e) => (o', inl e)
    end.
(** [try: m except ...: h e]; [h] returns [None] for an exception no
    clause names. *)
Definition try_except {O A} (m : M O A) (h : exn -> option (M O A))
  : M O A :=
  fun o =>
    match m o with
    | (o', inr a) => (o', inr a)
    | (o', inl e) =>
        match h e with
        | Some k => k o'
        | None => (o', inl e)
        end
    end.

(** Objects whose attributes are read and set by name. *)
Class Object (O : Type) := {
  getattr : string -> O -> exn + val;
  setattr : string -> val -> O -> exn + O
}.

Definition get {O} `{Object O} (name : string) : M O val :=
  fun o =>
    match getattr name o with
    | inr v => (o, inr v)
    | inl e => (o, inl e)
    end.

Definition set {O} `{Object O} (name : string) (v : val) : M O unit :=
  fun o =>
    match setattr name v o with
    | inr o' => (o', inr tt)
    | inl e => (o, inl e)
    end.

End Py.

Notation "x <- m ;; k" := (Py.bind m (fun x => k))
  (at level 100, m at next level, right associativity).
Notation "m ;;; k" := (Py.bind m (fun _ => k))
  (at level 100, right associativity).

(** ** class LogLineRegexp *)

Record LogLineRegexp := {
  _regex : string;
  _re : Re.pattern;
  _vars : list string;
  _end : bool;
  _match : option string
}.

(** [LogLineRegexp.__init__(regex, var, *args, **kwargs)]; the keyword
    arguments are [end] and [match]. *)
Definition LogLineRegexp_init (regex var : string) (args : list string)
  (kw_end : option bool) (kw_match : option string)
  : Py.exn + LogLineRegexp :=
  match Re.compile regex with
  | None => inl Py.ReError
  | Some re =>
      let vars := var :: args in
      if negb (Re.groups re =? length vars)%nat then inl Py.UserWarning
      else
        inr {| _regex := regex; _re := re; _vars := vars;
               _end := match kw_end with Some b => b | None => false end;
               _match := kw_match |}
  end.

(** [for i, v in enumerate(r.groups()): setattr(obj, self._vars[i], v)] *)
Fixpoint set_groups {O} `{Py.Object O} (vars : list string) (i : nat)
  (gs : list string) : Py.M O unit :=
  match gs with
  | [] => Py.ret tt
  | v :: gs' =>
      match vars !! i with
      | None => Py.raise Py.IndexError
      | Some name => Py.set name (Py.Str v) ;;; set_groups vars (S i) gs'
      end
  end.

(** [LogLineRegexp.__call__(line, obj)] *)
Definition LogLineRegexp_call {O} `{Py.Object O} (self : LogLineRegexp)
  (line : string) : Py.M O bool :=
  match Re.search (_re self) line with
  | None => Py.ret false
  | Some gs =>
      set_groups (_vars self) 0 gs ;;;
      if _end self then Py.raise Py.EndOfItem
      else
        match _match self with
        | Some m => Py.set m (Py.Bool true)
        | None => Py.ret tt
        end ;;;
        Py.ret true
  end.

(** ** class LogItemParser *)

(** The instance: the two streams, the matcher list, and [attrs], the
    part of the instance dictionary that holds values.  [_fin] is what is
    left of the input; [_fout] is what has been written, one string per
    call of [write]. *)
Record LogItemParser := {
  _fin : list string;
  _fout : list string;
  _write_residuals : option string;
  _residuals : gmap string Py.val;
  _line_regexps : list LogLineRegexp;
  attrs : gmap string Py.val
}.

Definition with_fin (fin : list string) (self : LogItemParser) :=
  {| _fin := fin; _fout := _fout self;
     _write_residuals := _write_residuals self;
     _residuals := _residuals self;
     _line_regexps := _line_regexps self; attrs := attrs self |}.

Definition with_fout (fout : list string) (self : LogItemParser) :=
  {| _fin := _fin self; _fout := fout;
     _write_residuals := _write_residuals self;
     _residuals := _residuals self;
     _line_regexps := _line_regexps self; attrs := attrs self |}.

Definition with_attrs (d : gmap string Py.val) (self : LogItemParser) :=
  {| _fin := _fin self; _fout := _fout self;
     _write_residuals := _write_residuals self;
     _residuals := _residuals self;
     _line_regexps := _line_regexps self; attrs := d |}.

(** What the setter of a property does with the value. *)
Inductive fset := ReadOnly | Store (attr : string) | StoreNot (attr : string).

(** The properties of the class: name, the attribute the getter returns,
    and the setter.  [not_converged] is made by [@converged.setter], so
    it shares the getter of [converged].  There is no property for
    [courant_number_max], [execution_time] or [clock_time]. *)
Definition properties : list (string * (string * fset)) :=
  [ ("time_index", ("_time_index", ReadOnly));
    ("courant_number_mean",
       ("_courant_number_mean", Store "_courant_number_mean"));
    ("delta_t", ("_delta_t", Store "_delta_t"));
    ("time", ("_time", Store "_time"));
    ("niterations", ("_niterations", Store "_niterations"));
    ("converged", ("_converged", Store "_converged"));
    ("not_converged", ("_converged", StoreNot "_converged"));
    ("continuity_errors_local",
       ("_continuity_errors_local", Store "_continuity_errors_local"));
    ("continuity_errors_global",
       ("_continuity_errors_global", Store "_continuity_errors_global"));
    ("continuity_errors_cumulative",
       ("_continuity_errors_cumulative",
        Store "_continuity_errors_cumulative")) ].

Fixpoint assoc {A} (name : string) (l : list (string * A)) : option A :=
  match l with
  | [] => None
  | (k, a) :: l' => if String.eqb name k then Some a else assoc name l'
  end.

Definition dict_get (name : string) (d : gmap string Py.val)
  : Py.exn + Py.val :=
  match d !! name with
  | Some v => inr v
  | None => inl Py.AttributeError
  end.

(** Attribute access on the instance dictionary under the properties of
    the class: a property comes first, then the dictionary itself. *)
#[global] Instance attrs_object : Py.Object (gmap string Py.val) := {
  getattr name d :=
    match assoc name properties with
    | Some (attr, _) => dict_get attr d
    | None => dict_get name d
    end;
  setattr name v d :=
    match assoc name properties with
    | Some (_, ReadOnly) => inl Py.AttributeError
    | Some (_, Store attr) => inr (<[attr := v]> d)
    | Some (_, StoreNot attr) =>
        inr (<[attr := Py.Bool (negb (Py.truthy v))]> d)
    | None => inr (<[name := v]> d)
    end
}.

#[global] Instance LogItemParser_object : Py.Object LogItemParser := {
  getattr name self := Py.getattr name (attrs self);
  setattr name v self :=
    match Py.setattr name v (attrs self) with
    | inr d => inr (with_attrs d self)
    | inl e => inl e
    end
}.

(** The matcher list of [__init__], in its order. *)
Definition line_regexps_spec
  : list (string * string * list string * option bool * option string) :=
  [ ("^ExecutionTime = (.+) s  ClockTime = (.+) s$",
       "execution_time", ["clock_time"], Some true, None);
    ("^Courant Number mean: (.+) max: (.+)$",
       "courant_number_mean", ["courant_number_max"], None, None);
    ("^deltaT = (.+)$", "delta_t", [], None, None);
    ("^Time = (.+)$", "time", [], None, None);
    ("^time step continuity errors : sum local = (.+), global = (.+), cumulative = (.+)$",
       "continuity_errors_local",
       ["continuity_errors_global"; "continuity_errors_cumulative"],
       None, None);
    ("^PIMPLE: converged in (\d+) iterations$",
       "niterations", [], None, Some "converged");
    ("^PIMPLE: not converged within (\d+) iterations$",
       "niterations", [], None, Some "not_converged") ].

Fixpoint build_regexps
  (l : list (string * string * list string * option bool * option string))
  : Py.exn + list LogLineRegexp :=
  match l with
  | [] => inr []
  | (regex, var, args, e, m) :: l' =>
      match LogLineRegexp_init regex var args e m with
      | inl x => inl x
      | inr r =>
          match build_regexps l' with
          | inl x => inl x
          | inr rs => inr (r :: rs)
          end
      end
  end.

(** The values [__init__] gives the attributes. *)
Definition init_attrs : gmap string Py.val :=
  {[ "_courant_number_mean" := Py.Int 0;
     "_courant_number_max" := Py.Int 0;
     "_delta_t" := Py.Int (-1);
     "_time" := Py.Int (-1);
     "_time_index" := Py.Int 0;
     "_converged" := Py.Bool false;
     "_converged_in" := Py.Int (-1);
     "_niterations" := Py.Int (-1);
     "_continuity_errors_local" := Py.Int (-1);
     "_continuity_errors_global" := Py.Int (-1);
     "_continuity_errors_cumulative" := Py.Int (-1);
     "_execution_time" := Py.Int (-1);
     "_clock_time" := Py.Int (-1) ]}.

(** [LogItemParser.__init__(fin, fout, residuals)], on a fresh [fout]. *)
Definition LogItemParser_init (fin : list string) (residuals : option string)
  : Py.exn + LogItemParser :=
  match build_regexps line_regexps_spec with
  | inl e => inl e
  | inr rs =>
      inr {| _fin := fin; _fout := [];
             _write_residuals := residuals;
             _residuals := ∅;
             _line_regexps := rs;
             attrs := init_attrs |}
  end.

(** [for regex in self._line_regexps: regex(line, self)] *)
Fixpoint for_regexps {O} `{Py.Object O} (rs : list LogLineRegexp)
  (line : string) : Py.M O unit :=
  match rs with
  | [] => Py.ret tt
  | r :: rs' => LogLineRegexp_call r line ;;; for_regexps rs' line
  end.

(** The [while True] of [slurp], by recursion on the lines [_fin] still
    holds: [next()] takes the first one off, or raises at the end. *)
Fixpoint slurp_while (lines : list string) : Py.M LogItemParser unit :=
  match lines with
  | [] => Py.raise Py.StopIteration
  | line :: rest =>
      fun self =>
        let self := with_fin rest self in
        (for_regexps (_line_regexps self) line ;;; slurp_while rest) self
  end.

(** [self._time_index += 1], on the instance dictionary. *)
Definition attrs_incr (d : gmap string Py.val)
  : Py.exn + gmap string Py.val :=
  match dict_get "_time_index" d with
  | inl e => inl e
  | inr v =>
      match Py.add1 v with
      | inl e => inl e
      | inr v' => inr (<["_time_index" := v']> d)
      end
  end.

Definition incr_time_index : Py.M LogItemParser unit :=
  fun self =>
    match attrs_incr (attrs self) with
    | inl e => (self, inl e)
    | inr d => (with_attrs d self, inr tt)
    end.

(** [LogItemParser.slurp] *)
Definition slurp : Py.M LogItemParser unit :=
  fun self =>
    Py.try_except (slurp_while (_fin self))
      (fun e =>
         match e with
         | Py.EndOfItem => Some incr_time_index
         | Py.StopIteration => Some (Py.raise Py.NoMoreItems)
         | _ => None
         end) self.

Definition fout_write (s : string) : Py.M LogItemParser unit :=
  fun self => (with_fout (_fout self ++ [s])%list self, inr tt).

(** ['{0} {1} ... {11}\n'.format(...)] *)
Definition format_row (vs : list Py.val) : string :=
  String.concat " " (map Py.str vs) +:+ nl.

(** The arguments of [format] in [spit], evaluated left to right. *)
Definition spit_args {O} `{Py.Object O} : Py.M O (list Py.val) :=
  a0 <- Py.get "time_index" ;;
  a1 <- Py.get "time" ;;
  a2 <- Py.get "delta_t" ;;
  a3 <- Py.get "courant_number_mean" ;;
  a4 <- Py.get "courant_number_max" ;;
  a5 <- Py.get "continuity_errors_local" ;;
  a6 <- Py.get "continuity_errors_global" ;;
  a7 <- Py.get "continuity_errors_cumulative" ;;
  a8 <- Py.get "niterations" ;;
  c <- Py.get "converged" ;;
  let a9 := if Py.truthy c then Py.Str "1" else Py.Int 0 in
  a10 <- Py.get "execution_time" ;;
  a11 <- Py.get "clock_time" ;;
  Py.ret [a0; a1; a2; a3; a4; a5; a6; a7; a8; a9; a10; a11].

(** [LogItemParser.spit] *)
Definition spit : Py.M LogItemParser unit :=
  vs <- spit_args ;;
  fout_write (format_row vs) ;;;
  fun self =>
    match _write_residuals self with
    | Some _ => (self, inr tt)
    | None => (self, inr tt)
    end.

(** [LogItemParser.header] *)
Definition header : string :=
  "# 0_step# 1_time 2_dt 3_Co_mean 4_Co_max 5_err_local " +:+
  "6_err_global 7_err_cumulative 8_niter 9_converged? " +:+
  "10_exec_time 11_clock_time".

(** ** _run *)

(** [while True: log_parser.slurp(); log_parser.spit()], at most [fuel]
    times round; [None] when the rounds do not suffice. *)
Fixpoint main_loop (fuel : nat) (self : LogItemParser)
  : option (LogItemParser * Py.exn) :=
  match fuel with
  | O => None
  | S fuel' =>
      match (slurp ;;; spit) self with
      | (self', inl e) => Some (self', e)
      | (self', inr _) => main_loop fuel' self'
      end
  end.

(** The lines iterating over a file yields: each keeps its newline. *)
Fixpoint readlines (s : string) : list string :=
  match s with
  | EmptyString => []
  | String c s' =>
      if Ascii.eqb c Re.newline then String c EmptyString :: readlines s'
      else
        match readlines s' with
        | [] => [String c EmptyString]
        | l :: ls => String c l :: ls
        end
  end.

(** The parsed command line. *)
Record Args := {
  input : option string;
  output : option string;
  force : bool;
  residuals : bool
}.

(** The files by path, and what standard input holds. *)
Record World := {
  files : gmap string string;
  stdin : string
}.

(** What a run leaves: the files, the two standard streams (without the
    traceback of an uncaught exception), and the value [_run] returns or
    the exception that leaves it. *)
Record Result := {
  files_after : gmap string string;
  stdout : string;
  stderr : string;
  status : Py.exn + Z
}.

(** The status of the process: [sys.exit] of the returned value, 1 for an
    uncaught exception. *)
Definition exit_code (r : Result) : Z :=
  match status r with
  | inr z => z
  | inl _ => 1
  end.

Definition concat_all (l : list string) : string := String.concat "" l.

Definition aborted (w : World) (e : Py.exn) : Result :=
  {| files_after := files w; stdout := ""; stderr := ""; status := inl e |}.

(** The two [if args.... is not None] blocks: the files after [fout] is
    opened, which truncates it, and the lines [fin] yields; the first
    read of [fin] comes after the truncation. *)
Definition open_streams (args : Args) (w : World)
  : Py.exn + (gmap string string * list string) :=
  if match input args with
     | Some p => negb (bool_decide (is_Some (files w !! p)))
     | None => false
     end
  then inl Py.IOError
  else
  if match output args with
     | Some q => bool_decide (is_Some (files w !! q)) && negb (force args)
     | None => false
     end
  then inl Py.IOError
  else
  let fs := match output args with
            | Some q => <[q := ""]> (files w)
            | None => files w
            end in
  inr (fs, match input args with
           | Some p => readlines (default "" (fs !! p))
           | None => readlines (stdin w)
           end).

(** [rout] *)
Definition rout_of (args : Args) : option string :=
  if residuals args
  then match output args with
       | Some q => Some q
       | None => Some "residual"
       end
  else None.

(** The body of the [try]: the header, then the loop, which an exception
    ends.  No more rounds are run than the input has lines, plus one. *)
Definition parse_log (log_parser : LogItemParser)
  : option (LogItemParser * Py.exn) :=
  let '(log_parser, _) := fout_write (header +:+ nl) log_parser in
  main_loop (S (length (_fin log_parser))) log_parser.

(** [except NoMoreItems: ...; return 0]; anything else leaves [_run]. *)
Definition status_of (e : Py.exn) : Py.exn + Z :=
  match e with
  | Py.NoMoreItems => inr 0
  | _ => inl e
  end.

Definition _run (args : Args) (w : World) : option Result :=
  match open_streams args w with
  | inl e => Some (aborted w e)
  | inr (fs, fin) =>
      match LogItemParser_init fin (rout_of args) with
      | inl e =>
          Some {| files_after := fs; stdout := ""; stderr := "";
                  status := inl e |}
      | inr log_parser =>
          match parse_log log_parser with
          | None => None
          | Some (log_parser, e) =>
              let text := concat_all (_fout log_parser) in
              Some {| files_after := match output args with
                                     | Some q => <[q := text]> fs
                                     | None => fs
                                     end;
                      stdout := match output args with
                                | Some _ => ""
                                | None => text
                                end;
                      stderr := match e with
                                | Py.NoMoreItems =>
                                    "Finished parsing log file." +:+ nl
                                | _ => ""
                                end;
                      status := status_of e |}
          end
      end
  end.

(** What the run wrote to its output, a file or standard output. *)
Definition written (args : Args) (r : Result) : string :=
  match output args with
  | Some q => default "" (files_after r !! q)
  | None => stdout r
  end.

(** The matchers the loop over [rs] calls on [line], in order: the loop
    ends at the first call that raises. *)
Fixpoint evaluated {O} `{Py.Object O} (rs : list LogLineRegexp)
  (line : string) (o : O) : list LogLineRegexp :=
  match rs with
  | [] => []
  | r :: rs' =>
      r :: match LogLineRegexp_call r line o with
           | (o', inr _) => evaluated rs' line o'
           | (_, inl _) => []
           end
  end.

(** A computation on the parser that only reads and writes [attrs]: it is
    the computation [m'] on the instance dictionary. *)
Definition lifts {A} (m : Py.M LogItemParser A)
  (m' : Py.M (gmap string Py.val) A) : Prop :=
  forall self,
    m self = (with_attrs (m' (attrs self)).1 self, (m' (attrs self)).2).

(** ** The fixed matchers, and what a log holds *)

(** The list [__init__] builds, with its patterns compiled. *)
Definition line_regexps : list LogLineRegexp :=
  Eval vm_compute in
    match build_regexps line_regexps_spec with
    | inr rs => rs
    | inl _ => []
    end.

Definition null_regexp : LogLineRegexp :=
  {| _regex := ""; _re := []; _vars := []; _end := false; _match := None |}.

Definition r_end := Eval vm_compute in nth 0 line_regexps null_regexp.
Definition r_courant := Eval vm_compute in nth 1 line_regexps null_regexp.
Definition r_deltaT := Eval vm_compute in nth 2 line_regexps null_regexp.
Definition r_time := Eval vm_compute in nth 3 line_regexps null_regexp.
Definition r_cont := Eval vm_compute in nth 4 line_regexps null_regexp.
Definition r_conv := Eval vm_compute in nth 5 line_regexps null_regexp.
Definition r_notconv := Eval vm_compute in nth 6 line_regexps null_regexp.

Definition re_end := Eval vm_compute in _re r_end.
Definition re_courant := Eval vm_compute in _re r_courant.
Definition re_deltaT := Eval vm_compute in _re r_deltaT.
Definition re_time := Eval vm_compute in _re r_time.
Definition re_cont := Eval vm_compute in _re r_cont.
Definition re_conv := Eval vm_compute in _re r_conv.
Definition re_notconv := Eval vm_compute in _re r_notconv.

(** Group [i] of the match of [p] in [line], when there is a match. *)
Definition grp (p : Re.pattern) (i : nat) (line : string) : option string :=
  match Re.search p line with
  | Some gs => Some (nth i gs "")
  | None => None
  end.

Definition matches (p : Re.pattern) (line : string) : bool :=
  match Re.search p line with
  | Some _ => true
  | None => false
  end.

(** End-of-record marker lines, and how many a piece of the log holds. *)
Definition is_end (line : string) : bool := matches re_end line.

Definition count_end (h : list string) : nat :=
  length (List.filter is_end h).

(** The latest capture of group [i] of [p] in the lines [h]. *)
Definition last_capture (p : Re.pattern) (i : nat) (h : list string)
  : option string :=
  last (omap (grp p i) h).

(** What a line says about convergence: the two PIMPLE patterns, the
    later matcher of the list having the last word. *)
Definition conv_of (line : string) : option bool :=
  if matches re_notconv line then Some false
  else if matches re_conv line then Some true
  else None.

Definition niter_of (line : string) : option string :=
  match grp re_notconv 0 line with
  | Some g => Some g
  | None => grp re_conv 0 line
  end.

(** The value of an attribute: its latest capture, or its default. *)
Definition or_default (dflt : Py.val) (o : option string) : Py.val :=
  match o with
  | Some g => Py.Str g
  | None => dflt
  end.

(** ** The effect of a line on the instance dictionary *)

(** A matcher as a function of the dictionary: when [p] matches, the
    [writes] are stored in their order, each from the tuple of groups. *)
Definition eff (p : Re.pattern)
  (writes : list (string * (list string -> Py.val)))
  (line : string) (d : gmap string Py.val) : gmap string Py.val :=
  match Re.search p line with
  | Some gs => foldl (fun d w => <[w.1 := w.2 gs]> d) d writes
  | None => d
  end.

Definition group (i : nat) (gs : list string) : Py.val :=
  Py.Str (nth i gs "").

Definition w_end := [("execution_time", group 0); ("clock_time", group 1)].
Definition w_courant :=
  [("_courant_number_mean", group 0); ("courant_number_max", group 1)].
Definition w_deltaT := [("_delta_t", group 0)].
Definition w_time := [("_time", group 0)].
Definition w_cont :=
  [("_continuity_errors_local", group 0);
   ("_continuity_errors_global", group 1);
   ("_continuity_errors_cumulative", group 2)].
Definition w_conv :=
  [("_niterations", group 0);
   ("_converged", fun _ : list string => Py.Bool true)].
Definition w_notconv :=
  [("_niterations", group 0);
   ("_converged", fun _ : list string => Py.Bool false)].

(** The six matchers after the end marker, in the order of the list. *)
Definition others (line : string) (d : gmap string Py.val)
  : gmap string Py.val :=
  eff re_notconv w_notconv line
    (eff re_conv w_conv line
       (eff re_cont w_cont line
          (eff re_time w_time line
             (eff re_deltaT w_deltaT line
                (eff re_courant w_courant line d))))).

(** [_time_index += 1] where it succeeds. *)
Definition bump (d : gmap string Py.val) : gmap string Py.val :=
  match attrs_incr d with
  | inr d' => d'
  | inl _ => d
  end.

(** The dictionary after one more line of the log has been consumed. *)
Definition feed (d : gmap string Py.val) (line : string)
  : gmap string Py.val :=
  if is_end line then bump (eff re_end w_end line d) else others line d.

(** The dictionary after the lines [h], from the start of a run. *)
Definition attrs_after (h : list string) : gmap string Py.val :=
  foldl feed init_attrs h.

(** [keeps key u]: a line [l] leaves [u l] under [key] when that is a
    value, and what was there otherwise. *)
Definition keeps (key : string) (u : string -> option Py.val) : Prop :=
  forall d line,
    feed d line !! key
    = match u line with
      | Some v => Some v
      | None => d !! key
      end.

(** A parser with the fixed matchers, by its streams and dictionary. *)
Definition parser_at (fin out : list string) (rout : option string)
  (d : gmap string Py.val) : LogItemParser :=
  {| _fin := fin; _fout := out;
     _write_residuals := rout; _residuals := ∅;
     _line_regexps := line_regexps; attrs := d |}.

(** The rows the main loop writes for the lines [ls] that follow the
    lines [h], and the exception that ends it. *)
Fixpoint trace_from (h ls : list string) : list string * Py.exn :=
  match ls with
  | [] => ([], Py.NoMoreItems)
  | l :: ls' =>
      if is_end l then
        match spit_args (attrs_after (h ++ [l])) with
        | (_, inr vs) =>
            let '(rows, e) := trace_from (h ++ [l]) ls' in
            (format_row vs :: rows, e)
        | (_, inl e) => ([], e)
        end
      else trace_from (h ++ [l]) ls'
  end.

(** The twelve values of the row that the marker line ending the lines
    [h] completes: every attribute holds its latest capture since the
    start of the log, or the value of [__init__].  There is no row when
    [courant_number_max] was never captured. *)
Definition row_values (h : list string) : option (list Py.val) :=
  match last_capture re_courant 1 h,
        last_capture re_end 0 h, last_capture re_end 1 h with
  | Some mx, Some ex, Some ck =>
      Some [ Py.Int (Z.of_nat (count_end h));
             or_default (Py.Int (-1)) (last_capture re_time 0 h);
             or_default (Py.Int (-1)) (last_capture re_deltaT 0 h);
             or_default (Py.Int 0) (last_capture re_courant 0 h);
             Py.Str mx;
             or_default (Py.Int (-1)) (last_capture re_cont 0 h);
             or_default (Py.Int (-1)) (last_capture re_cont 1 h);
             or_default (Py.Int (-1)) (last_capture re_cont 2 h);
             or_default (Py.Int (-1)) (last (omap niter_of h));
             (if default false (last (omap conv_of h))
              then Py.Str "1" else Py.Int 0);
             Py.Str ex;
             Py.Str ck ]
  | _, _, _ => None
  end.

(** ** Sample logs *)

(** The six-line record of the round-trip example, as a file. *)
Definition sample_log : string :=
  "Time = 0.1" +:+ nl +:+
  "Courant Number mean: 0.05 max: 0.3" +:+ nl +:+
  "deltaT = 0.001" +:+ nl +:+
  "time step continuity errors : sum local = 1e-6, global = 2e-6, cumulative = 3e-6" +:+ nl +:+
  "PIMPLE: converged in 4 iterations" +:+ nl +:+
  "ExecutionTime = 12.3 s  ClockTime = 13.1 s" +:+ nl.

Definition sample_lines : list string :=
  Eval vm_compute in readlines sample_log.

(** A record with a Courant line and a Time line, then a record that is
    its marker line alone. *)
Definition two_records : list string :=
  [ "Courant Number mean: 1 max: 2" +:+ nl;
    "Time = 0.1" +:+ nl;
    "ExecutionTime = 1 s  ClockTime = 2 s" +:+ nl;
    "ExecutionTime = 3 s  ClockTime = 4 s" +:+ nl ].

(** A record whose captures are not numbers. *)
Definition words_log : string :=
  "Courant Number mean: foo max: bar" +:+ nl +:+
  "Time = abc" +:+ nl +:+
  "ExecutionTime = x s  ClockTime = y s" +:+ nl.

(** The parser after a whole run on some lines. *)
Definition final_parser (fin : list string) : LogItemParser :=
  match LogItemParser_init fin None with
  | inr p =>
      match parse_log p with
      | Some (p', _) => p'
      | None => p
      end
  | inl _ => parser_at fin [] None init_attrs
  end.

Definition sample_final : LogItemParser :=
  Eval vm_compute in final_parser sample_lines.

Definition two_records_final : LogItemParser :=
  Eval vm_compute in final_parser two_records.

Definition from_stdin (text : string) : World :=
  {| files := ∅; stdin := text |}.

Definition to_stdout : Args :=
  {| input := None; output := None; force := false; residuals := false |}.

(** ** Variants of a command line *)

Definition set_residuals (b : bool) (args : Args) : Args :=
  {| input := input args; output := output args;
     force := force args; residuals := b |}.

Definition set_output (o : option string) (args : Args) : Args :=
  {| input := input args; output := o;
     force := force args; residuals := residuals args |}.

Definition set_input (i : option string) (args : Args) : Args :=
  {| input := i; output := output args;
     force := force args; residuals := residuals args |}.

Definition set_stdin (text : string) (w : World) : World :=
  {| files := files w; stdin := text |}.

(** ** Lines the parser recognises *)

(** [line] matches the pattern of one of the seven matchers. *)
Definition recognised (line : string) : bool :=
  existsb (fun r => matches (_re r) line) line_regexps.

(** ** Line ends *)

(** No character of [s] is a newline. *)
Fixpoint no_newline (s : string) : bool :=
  match s with
  | EmptyString => true
  | String c s' => negb (Ascii.eqb c Re.newline) && no_newline s'
  end.

Definition cr : ascii := "013"%char.

(** A carriage return and a newline, as a DOS text file ends its lines. *)
Definition crlf : string := String cr nl.

(** A pattern item that is not the literal newline. *)
Definition plain_tok (t : Re.tok) : bool :=
  match t with
  | Re.Lit c => negb (Ascii.eqb c Re.newline)
  | _ => true
  end.

(** ** What a group captures *)

(** The classes of the groups of a pattern, in order. *)
Fixpoint group_classes (p : Re.pattern) : list Re.cls :=
  match p with
  | [] => []
  | Re.Group1 k :: p' => k :: group_classes p'
  | _ :: p' => group_classes p'
  end.

(** Every character of [s] is of class [k]. *)
Fixpoint all_in (k : Re.cls) (s : string) : bool :=
  match s with
  | EmptyString => true
  | String c s' => Re.cls_mem k c && all_in k s'
  end.

(** A capture of a group of class [k]: one character or more, all of
    the class. *)
Definition captured_by (k : Re.cls) (g : string) : Prop :=
  g <> "" /\ all_in k g = true.

(** ** postprocess.py: the case folders *)

Module Postprocess.

(** A file system as [os.walk] and [os.path.exists] see it when nothing
    changes under them: a tree of directories, each with its entries in
    the order [os.listdir] gives them, and no symbolic links. *)
#[local] Set Warnings "-register-all".
Inductive node := File | Dir (entries : list (string * node)).

Definition isdir (n : node) : bool :=
  match n with
  | Dir _ => true
  | File => false
  end.

(** [os.path.exists(join(p, name))], for the node at [p]. *)
Definition exists_in (n : node) (name : string) : bool :=
  match n with
  | Dir es => existsb (fun e => String.eqb e.1 name) es
  | File => false
  end.

Definition starts_with_slash (s : string) : bool :=
  match s with
  | String c _ => Ascii.eqb c "/"
  | EmptyString => false
  end.

Fixpoint ends_with_slash (s : string) : bool :=
  match s with
  | EmptyString => false
  | String c EmptyString => Ascii.eqb c "/"
  | String _ s' => ends_with_slash s'
  end.

(** [os.path.join(a, b)] of [posixpath]. *)
Definition join (a b : string) : string :=
  if starts_with_slash b then b
  else if String.eqb a "" || ends_with_slash a then a +:+ b
  else a +:+ "/" +:+ b.

(** [os.walk(top)], top down, for the node at [top]: one triple for each
    directory, the sub-directories with their nodes.  A [top] that is no
    directory yields nothing: [listdir] fails and [walk] returns. *)
Fixpoint walk (top : string) (n : node)
  : list (string * list (string * node) * list string) :=
  match n with
  | File => []
  | Dir names =>
      let dirs := List.filter (fun e => isdir e.2) names in
      let nondirs := map fst (List.filter (fun e => negb (isdir e.2)) names) in
      (top, dirs, nondirs)
      :: (fix below (es : list (string * node)) :=
            match es with
            | [] => []
            | (name, c) :: es' =>
                ((if isdir c then walk (join top name) c else [])
                 ++ below es')%list
            end) names
  end.

(** [for d in dirs: ...]: the sub-folders of [root] with an entry
    [system]. *)
Fixpoint cases_in (root : string) (dirs : list (string * node))
  : list string :=
  match dirs with
  | [] => []
  | (d, c) :: dirs' =>
      let case_path := join root d in
      let system_folder := join case_path "system" in
      ((if exists_in c "system" then [case_path] else [])
       ++ cases_in root dirs')%list
  end.

(** [_foam_cases(path)], as the list of what it yields; [n] is the node
    at [path]. *)
Definition _foam_cases (path : string) (n : node) : list string :=
  flat_map (fun '(root, dirs, files) => cases_in root dirs) (walk path n).

(** [folder_at top n root es]: [root] is the path [walk] gives a directory
    with entries [es] that is, or lies at any depth under, the node [n]
    at [top]. *)
Inductive folder_at : string -> node -> string -> list (string * node) -> Prop :=
| folder_here top es : folder_at top (Dir es) top es
| folder_below top es d c root es' :
    (d, c) ∈ es ->
    folder_at (join top d) c root es' ->
    folder_at top (Dir es) root es'.

(** A tree with a case, a case inside it, and a folder [system] at the
    top. *)
Definition sample_tree : node :=
  Dir [ ("a", Dir [ ("system", Dir []); ("log", File);
                    ("sub", Dir [("system", File)]) ]);
        ("system", Dir []);
        ("b", File) ].

End Postprocess.

(** * Properties *)

(** ** The regular expressions *)

Section ReFacts.

Import Re.

(** A match returns one string per group of the pattern. *)
Lemma match_here_length p : forall bol s gs,
  match_here p bol s = Some gs -> length gs = groups p.
Proof.
  induction p as [|t p IH]; intros bol s gs; simpl.
  - by intros [= <-].
  - destruct t as [| |c|k].
    + destruct bol; [apply IH | done].
    + destruct (at_end s); [apply IH | done].
    + destruct s as [|d s']; [done|].
      destruct (Ascii.eqb c d); [apply IH | done].
    + intros H.
      match type of H with
      | match ?g s with _ => _ end = _ =>
          assert (G : forall s cap gs', g s = Some (cap, gs') ->
                                   length gs' = groups p)
      end.
      { clear H. intros s0. induction s0 as [|c s' IHs]; intros cap gs'.
        - done.
        - destruct (cls_mem k c); [|done].
          match goal with
          | |- context [match ?x with Some _ => _ | None => _ end] =>
              destruct x as [[cap0 gs0]|] eqn:E
          end.
          + intros [= _ <-]. eauto.
          + destruct (match_here p false s') as [gs0|] eqn:E'; [|done].
            intros [= _ <-]. eauto. }
      match type of H with
      | match ?x with _ => _ end = _ => destruct x as [[cap gs']|] eqn:E
      end; [|done].
      injection H as <-. simpl. f_equal. eauto.
Qed.

Lemma search_from_length p : forall s bol gs,
  search_from p bol s = Some gs -> length gs = groups p.
Proof.
  induction s as [|c s IH]; intros bol gs; simpl.
  - destruct (match_here p bol "") eqn:E; [|done].
    intros [= <-]. eauto using match_here_length.
  - destruct (match_here p bol (String c s)) eqn:E.
    + intros [= <-]. eauto using match_here_length.
    + apply IH.
Qed.

Lemma search_length p s gs :
  search p s = Some gs -> length gs = groups p.
Proof. apply search_from_length. Qed.

(** A pattern that opens with [^] matches at the start or not at all. *)
Lemma search_from_bol_false p s : search_from (Bol :: p) false s = None.
Proof. induction s as [|c s IH]; simpl; [done | apply IH]. Qed.

(** A pattern [^c...] matches only lines whose first character is [c]. *)
Lemma search_bol_lit c p s gs :
  search (Bol :: Lit c :: p) s = Some gs -> exists s', s = String c s'.
Proof.
  unfold search. destruct s as [|d s]; [done|].
  cbn [search_from match_here].
  destruct (Ascii.eqb_spec c d) as [->|_]; [eauto|].
  by rewrite search_from_bol_false.
Qed.

End ReFacts.

(** ** From the parser to its instance dictionary *)

Lemma with_attrs_id self : with_attrs (attrs self) self = self.
Proof. by destruct self. Qed.

Lemma with_attrs_twice d d' self :
  with_attrs d (with_attrs d' self) = with_attrs d self.
Proof. reflexivity. Qed.

Lemma lifts_ret {A} (a : A) : lifts (Py.ret a) (Py.ret a).
Proof. intros self. cbv [Py.ret Py.raise]. simpl. by rewrite with_attrs_id. Qed.

Lemma lifts_raise {A} e : lifts (A := A) (Py.raise e) (Py.raise e).
Proof. intros self. cbv [Py.ret Py.raise]. simpl. by rewrite with_attrs_id. Qed.

Lemma lifts_bind {A B} m m' (k : A -> Py.M LogItemParser B) k' :
  lifts m m' -> (forall a, lifts (k a) (k' a)) ->
  lifts (Py.bind m k) (Py.bind m' k').
Proof.
  intros Hm Hk self. unfold Py.bind. rewrite Hm.
  destruct (m' (attrs self)) as [d [e|a]]; simpl; [done|].
  by rewrite Hk.
Qed.

Lemma lifts_set name v : lifts (Py.set name v) (Py.set name v).
Proof.
  intros self. unfold Py.set.
  change (Py.setattr name v self)
    with (match Py.setattr name v (attrs self) with
          | inr d => inr (with_attrs d self)
          | inl e => @inl _ LogItemParser e
          end).
  destruct (Py.setattr name v (attrs self)); cbn [fst snd]; [|done].
  by rewrite with_attrs_id.
Qed.

Lemma lifts_get name : lifts (Py.get name) (Py.get name).
Proof.
  intros self. unfold Py.get.
  change (Py.getattr name self) with (Py.getattr name (attrs self)).
  destruct (Py.getattr name (attrs self)); cbn [fst snd];
    by rewrite with_attrs_id.
Qed.

Lemma lifts_set_groups vars gs : forall i,
  lifts (set_groups vars i gs) (set_groups vars i gs).
Proof.
  induction gs as [|g gs IH]; intros i; simpl.
  - apply lifts_ret.
  - destruct (vars !! i); [|apply lifts_raise].
    apply lifts_bind; [apply lifts_set | intros _; apply IH].
Qed.

Lemma lifts_call r line :
  lifts (LogLineRegexp_call r line) (LogLineRegexp_call r line).
Proof.
  unfold LogLineRegexp_call. destruct (Re.search (_re r) line).
  - apply lifts_bind; [apply lifts_set_groups | intros _].
    destruct (_end r); [apply lifts_raise|].
    apply lifts_bind; [|intros _; apply lifts_ret].
    destruct (_match r); [apply lifts_set | apply lifts_ret].
  - apply lifts_ret.
Qed.

Lemma lifts_for_regexps rs line :
  lifts (for_regexps rs line) (for_regexps rs line).
Proof.
  induction rs as [|r rs IH]; simpl.
  - apply lifts_ret.
  - apply lifts_bind; [apply lifts_call | intros _; apply IH].
Qed.

Lemma lifts_spit_args : lifts spit_args spit_args.
Proof.
  unfold spit_args.
  repeat (apply lifts_bind; [apply lifts_get | intros ?]).
  apply lifts_ret.
Qed.

(** ** The matchers as functions of the dictionary *)

Lemma assoc_not_in {A} key (l : list (string * A)) :
  key ∉ l.*1 -> assoc key l = None.
Proof.
  induction l as [|[k a] l IH]; simpl; [done|].
  intros H. apply not_elem_of_cons in H as [Hk Hl].
  destruct (String.eqb_spec key k); [done | auto].
Qed.

Lemma foldl_writes_lookup gs key
  (writes : list (string * (list string -> Py.val))) :
  NoDup writes.*1 ->
  forall d : gmap string Py.val,
    foldl (fun d w => <[w.1 := w.2 gs]> d) d writes !! key
    = match assoc key writes with
      | Some f => Some (f gs)
      | None => d !! key
      end.
Proof.
  induction writes as [|[k f] ws IH]; intros Hnd d; simpl; [done|].
  apply NoDup_cons in Hnd as [Hk Hnd]. rewrite IH by done.
  destruct (String.eqb_spec key k) as [->|Hne].
  - rewrite assoc_not_in by done. apply lookup_insert_eq.
  - destruct (assoc key ws); [done|]. by apply lookup_insert_ne.
Qed.

(** What a matcher leaves under a key: what it writes there, if it
    matches and writes there at all. *)
Lemma eff_lookup p writes line d key :
  NoDup writes.*1 ->
  eff p writes line d !! key
  = match assoc key writes with
    | Some f =>
        match Re.search p line with
        | Some gs => Some (f gs)
        | None => d !! key
        end
    | None => d !! key
    end.
Proof.
  intros Hnd. unfold eff. destruct (Re.search p line) as [gs|].
  - by apply foldl_writes_lookup.
  - by destruct (assoc key writes).
Qed.

Ltac call_char re :=
  intros; unfold LogLineRegexp_call, eff, matches;
  match goal with
  | |- context [Re.search ?p ?line] =>
      change p with re;
      let E := fresh "E" in
      destruct (Re.search re line) as [gs|] eqn:E;
      [ apply search_length in E;
        repeat (destruct gs as [|? gs]; try discriminate E);
        reflexivity
      | reflexivity ]
  end.

Lemma call_end line (d : gmap string Py.val) :
  LogLineRegexp_call r_end line d
  = (eff re_end w_end line d,
     if matches re_end line then inl Py.EndOfItem else inr false).
Proof. call_char re_end. Qed.

Lemma call_courant line (d : gmap string Py.val) :
  LogLineRegexp_call r_courant line d
  = (eff re_courant w_courant line d, inr (matches re_courant line)).
Proof. call_char re_courant. Qed.

Lemma call_deltaT line (d : gmap string Py.val) :
  LogLineRegexp_call r_deltaT line d
  = (eff re_deltaT w_deltaT line d, inr (matches re_deltaT line)).
Proof. call_char re_deltaT. Qed.

Lemma call_time line (d : gmap string Py.val) :
  LogLineRegexp_call r_time line d
  = (eff re_time w_time line d, inr (matches re_time line)).
Proof. call_char re_time. Qed.

Lemma call_cont line (d : gmap string Py.val) :
  LogLineRegexp_call r_cont line d
  = (eff re_cont w_cont line d, inr (matches re_cont line)).
Proof. call_char re_cont. Qed.

Lemma call_conv line (d : gmap string Py.val) :
  LogLineRegexp_call r_conv line d
  = (eff re_conv w_conv line d, inr (matches re_conv line)).
Proof. call_char re_conv. Qed.

Lemma call_notconv line (d : gmap string Py.val) :
  LogLineRegexp_call r_notconv line d
  = (eff re_notconv w_notconv line d, inr (matches re_notconv line)).
Proof. call_char re_notconv. Qed.

(** One line through the whole list: the end marker stops the loop with
    its two attributes stored; any other line runs all seven matchers. *)
Lemma for_regexps_attrs line (d : gmap string Py.val) :
  for_regexps line_regexps line d
  = if is_end line then (eff re_end w_end line d, inl Py.EndOfItem)
    else (others line d, inr tt).
Proof.
  change line_regexps
    with [r_end; r_courant; r_deltaT; r_time; r_cont; r_conv; r_notconv].
  unfold is_end, others. cbn [for_regexps]. unfold Py.bind.
  rewrite call_end. unfold matches at 1 2, eff at 1.
  destruct (Re.search re_end line) as [gs|] eqn:E.
  - unfold eff. by rewrite E.
  - rewrite call_courant, call_deltaT, call_time, call_cont, call_conv,
      call_notconv.
    unfold Py.ret, eff at 7. by rewrite E.
Qed.

Lemma eff_end_not_end line d : is_end line = false -> eff re_end w_end line d = d.
Proof.
  unfold is_end, matches, eff. by destruct (Re.search re_end line).
Qed.

(** ** The marker line and the other patterns exclude each other *)

Lemma search_first_char c1 c2 p1 p2 s gs :
  c1 <> c2 ->
  Re.search (Re.Bol :: Re.Lit c1 :: p1) s = Some gs ->
  Re.search (Re.Bol :: Re.Lit c2 :: p2) s = None.
Proof.
  intros Hne H1. apply search_bol_lit in H1 as [s1 ->].
  destruct (Re.search _ (String c1 s1)) as [gs2|] eqn:H2; [|done].
  apply search_bol_lit in H2 as [s2 [= ? _]]. done.
Qed.

Ltac not_end_pattern line :=
  unfold is_end, matches;
  let E := fresh "E" in
  destruct (Re.search re_end line) as [gs|] eqn:E; [intros _|done];
  eapply search_first_char; [|exact E]; done.

Lemma end_not_courant line :
  is_end line = true -> Re.search re_courant line = None.
Proof. not_end_pattern line. Qed.
Lemma end_not_deltaT line :
  is_end line = true -> Re.search re_deltaT line = None.
Proof. not_end_pattern line. Qed.
Lemma end_not_time line :
  is_end line = true -> Re.search re_time line = None.
Proof. not_end_pattern line. Qed.
Lemma end_not_cont line :
  is_end line = true -> Re.search re_cont line = None.
Proof. not_end_pattern line. Qed.
Lemma end_not_conv line :
  is_end line = true -> Re.search re_conv line = None.
Proof. not_end_pattern line. Qed.
Lemma end_not_notconv line :
  is_end line = true -> Re.search re_notconv line = None.
Proof. not_end_pattern line. Qed.

(** ** The dictionary along the log *)

Lemma nodup_w_end : NoDup w_end.*1.
Proof. by apply (bool_decide_unpack _). Qed.
Lemma nodup_w_courant : NoDup w_courant.*1.
Proof. by apply (bool_decide_unpack _). Qed.
Lemma nodup_w_deltaT : NoDup w_deltaT.*1.
Proof. by apply (bool_decide_unpack _). Qed.
Lemma nodup_w_time : NoDup w_time.*1.
Proof. by apply (bool_decide_unpack _). Qed.
Lemma nodup_w_cont : NoDup w_cont.*1.
Proof. by apply (bool_decide_unpack _). Qed.
Lemma nodup_w_conv : NoDup w_conv.*1.
Proof. by apply (bool_decide_unpack _). Qed.
Lemma nodup_w_notconv : NoDup w_notconv.*1.
Proof. by apply (bool_decide_unpack _). Qed.

Create HintDb writes.
#[local] Hint Resolve nodup_w_end nodup_w_courant nodup_w_deltaT
  nodup_w_time nodup_w_cont nodup_w_conv nodup_w_notconv : writes.

Lemma bump_lookup_ne d key :
  key <> "_time_index" -> bump d !! key = d !! key.
Proof.
  intros Hne. unfold bump, attrs_incr.
  destruct (dict_get "_time_index" d) as [e|v]; [done|].
  destruct (Py.add1 v); [done|]. by apply lookup_insert_ne.
Qed.

Lemma bump_time_index d n :
  d !! "_time_index" = Some (Py.Int n) ->
  attrs_incr d = inr (<["_time_index" := Py.Int (n + 1)]> d).
Proof. intros H. unfold attrs_incr, dict_get. by rewrite H. Qed.

Ltac feed_key :=
  intros d line; unfold feed, niter_of, conv_of, grp, matches;
  destruct (is_end line) eqn:He;
  [ rewrite bump_lookup_ne by done;
    rewrite eff_lookup by auto with writes;
    cbn [assoc String.eqb Ascii.eqb Bool.eqb w_end];
    rewrite ?end_not_courant, ?end_not_deltaT, ?end_not_time,
      ?end_not_cont, ?end_not_conv, ?end_not_notconv by done
  | unfold others; rewrite !eff_lookup by auto with writes;
    cbn [assoc String.eqb Ascii.eqb Bool.eqb
         w_courant w_deltaT w_time w_cont w_conv w_notconv];
    unfold is_end, matches in He ];
  repeat match goal with
         | |- context [Re.search ?p line] => destruct (Re.search p line)
         end;
  done.

Lemma keeps_time : keeps "_time" (fun l => Py.Str <$> grp re_time 0 l).
Proof. feed_key. Qed.

Lemma keeps_delta_t :
  keeps "_delta_t" (fun l => Py.Str <$> grp re_deltaT 0 l).
Proof. feed_key. Qed.

Lemma keeps_courant_mean :
  keeps "_courant_number_mean" (fun l => Py.Str <$> grp re_courant 0 l).
Proof. feed_key. Qed.

Lemma keeps_courant_max :
  keeps "courant_number_max" (fun l => Py.Str <$> grp re_courant 1 l).
Proof. feed_key. Qed.

Lemma keeps_cont_local :
  keeps "_continuity_errors_local" (fun l => Py.Str <$> grp re_cont 0 l).
Proof. feed_key. Qed.

Lemma keeps_cont_global :
  keeps "_continuity_errors_global" (fun l => Py.Str <$> grp re_cont 1 l).
Proof. feed_key. Qed.

Lemma keeps_cont_cumulative :
  keeps "_continuity_errors_cumulative"
    (fun l => Py.Str <$> grp re_cont 2 l).
Proof. feed_key. Qed.

Lemma keeps_niterations :
  keeps "_niterations" (fun l => Py.Str <$> niter_of l).
Proof. feed_key. Qed.

Lemma keeps_converged :
  keeps "_converged" (fun l => Py.Bool <$> conv_of l).
Proof. feed_key. Qed.

Lemma keeps_execution_time :
  keeps "execution_time" (fun l => Py.Str <$> grp re_end 0 l).
Proof. feed_key. Qed.

Lemma keeps_clock_time :
  keeps "clock_time" (fun l => Py.Str <$> grp re_end 1 l).
Proof. feed_key. Qed.

Lemma attrs_after_snoc h line :
  attrs_after (h ++ [line]) = feed (attrs_after h) line.
Proof. apply foldl_snoc. Qed.

(** Under a key that is kept, the dictionary holds the [u] of the latest
    line that has one, or the value of [__init__]. *)
Lemma attrs_after_keeps key u :
  keeps key u ->
  forall h,
    attrs_after h !! key
    = match last (omap u h) with
      | Some v => Some v
      | None => init_attrs !! key
      end.
Proof.
  intros Hk h. induction h as [|line h IH] using rev_ind; [done|].
  rewrite attrs_after_snoc, Hk, omap_app. simpl.
  destruct (u line) as [v|]; simpl.
  - by rewrite last_snoc.
  - by rewrite app_nil_r.
Qed.

Lemma last_omap_fmap {A B} (f : A -> B) (g : string -> option A) h :
  last (omap (fun l => f <$> g l) h) = f <$> last (omap g h).
Proof.
  assert (E : omap (fun l => f <$> g l) h = f <$> omap g h).
  { induction h as [|l h IH]; [done|].
    change (omap (fun l => f <$> g l) (l :: h))
      with (match f <$> g l with
            | Some y => y :: omap (fun l => f <$> g l) h
            | None => omap (fun l => f <$> g l) h
            end).
    change (omap g (l :: h))
      with (match g l with
            | Some y => y :: omap g h
            | None => omap g h
            end).
    rewrite IH. by destruct (g l). }
  rewrite E. apply fmap_last.
Qed.

Lemma attrs_after_capture key p i dflt :
  keeps key (fun l => Py.Str <$> grp p i l) ->
  init_attrs !! key = Some dflt ->
  forall h,
    attrs_after h !! key = Some (or_default dflt (last_capture p i h)).
Proof.
  intros Hk Hd h. rewrite (attrs_after_keeps _ _ Hk), last_omap_fmap.
  unfold last_capture. by destruct (last (omap (grp p i) h)).
Qed.

(** The counter holds the number of marker lines consumed. *)
Lemma attrs_after_time_index h :
  attrs_after h !! "_time_index" = Some (Py.Int (Z.of_nat (count_end h))).
Proof.
  induction h as [|line h IH] using rev_ind; [done|].
  rewrite attrs_after_snoc. unfold count_end in *.
  rewrite List.filter_app, length_app. cbn [List.filter].
  unfold feed. destruct (is_end line) eqn:He.
  - unfold bump.
    rewrite (bump_time_index _ (Z.of_nat (length (List.filter is_end h)))).
    + rewrite lookup_insert_eq. simpl. do 2 f_equal. lia.
    + rewrite eff_lookup by auto with writes. apply IH.
  - unfold others. rewrite !eff_lookup by auto with writes.
    cbn [assoc String.eqb Ascii.eqb Bool.eqb
         w_courant w_deltaT w_time w_cont w_conv w_notconv].
    rewrite IH. simpl. do 2 f_equal. lia.
Qed.

Lemma after_time h :
  attrs_after h !! "_time"
  = Some (or_default (Py.Int (-1)) (last_capture re_time 0 h)).
Proof. apply attrs_after_capture; [apply keeps_time | done]. Qed.

Lemma after_delta_t h :
  attrs_after h !! "_delta_t"
  = Some (or_default (Py.Int (-1)) (last_capture re_deltaT 0 h)).
Proof. apply attrs_after_capture; [apply keeps_delta_t | done]. Qed.

Lemma after_courant_mean h :
  attrs_after h !! "_courant_number_mean"
  = Some (or_default (Py.Int 0) (last_capture re_courant 0 h)).
Proof. apply attrs_after_capture; [apply keeps_courant_mean | done]. Qed.

Lemma after_cont_local h :
  attrs_after h !! "_continuity_errors_local"
  = Some (or_default (Py.Int (-1)) (last_capture re_cont 0 h)).
Proof. apply attrs_after_capture; [apply keeps_cont_local | done]. Qed.

Lemma after_cont_global h :
  attrs_after h !! "_continuity_errors_global"
  = Some (or_default (Py.Int (-1)) (last_capture re_cont 1 h)).
Proof. apply attrs_after_capture; [apply keeps_cont_global | done]. Qed.

Lemma after_cont_cumulative h :
  attrs_after h !! "_continuity_errors_cumulative"
  = Some (or_default (Py.Int (-1)) (last_capture re_cont 2 h)).
Proof. apply attrs_after_capture; [apply keeps_cont_cumulative | done]. Qed.

Lemma after_niterations h :
  attrs_after h !! "_niterations"
  = Some (or_default (Py.Int (-1)) (last (omap niter_of h))).
Proof.
  rewrite (attrs_after_keeps _ _ keeps_niterations), last_omap_fmap.
  by destruct (last (omap niter_of h)).
Qed.

Lemma after_converged h :
  attrs_after h !! "_converged"
  = Some (Py.Bool (default false (last (omap conv_of h)))).
Proof.
  rewrite (attrs_after_keeps _ _ keeps_converged), last_omap_fmap.
  by destruct (last (omap conv_of h)).
Qed.

(** The three attributes without a property exist once captured. *)
Lemma after_courant_max h :
  attrs_after h !! "courant_number_max"
  = Py.Str <$> last_capture re_courant 1 h.
Proof.
  rewrite (attrs_after_keeps _ _ keeps_courant_max), last_omap_fmap.
  unfold last_capture. by destruct (last (omap (grp re_courant 1) h)).
Qed.

Lemma after_execution_time h :
  attrs_after h !! "execution_time" = Py.Str <$> last_capture re_end 0 h.
Proof.
  rewrite (attrs_after_keeps _ _ keeps_execution_time), last_omap_fmap.
  unfold last_capture. by destruct (last (omap (grp re_end 0) h)).
Qed.

Lemma after_clock_time h :
  attrs_after h !! "clock_time" = Py.Str <$> last_capture re_end 1 h.
Proof.
  rewrite (attrs_after_keeps _ _ keeps_clock_time), last_omap_fmap.
  unfold last_capture. by destruct (last (omap (grp re_end 1) h)).
Qed.

(** Reading an attribute: through the getter of its property, if any. *)
Lemma getattr_eq name (d : gmap string Py.val) :
  Py.getattr name d
  = dict_get match assoc name properties with
             | Some (attr, _) => attr
             | None => name
             end d.
Proof.
  unfold Py.getattr, attrs_object.
  by destruct (assoc name properties) as [[attr f]|].
Qed.

Lemma bind_get_ok {A} name (k : Py.val -> Py.M (gmap string Py.val) A) d v :
  d !! match assoc name properties with
       | Some (attr, _) => attr
       | None => name
       end = Some v ->
  Py.bind (Py.get name) k d = k v d.
Proof.
  intros H. unfold Py.bind, Py.get. rewrite getattr_eq. unfold dict_get.
  by rewrite H.
Qed.

Lemma bind_get_fail {A} name (k : Py.val -> Py.M (gmap string Py.val) A) d :
  d !! match assoc name properties with
       | Some (attr, _) => attr
       | None => name
       end = None ->
  Py.bind (Py.get name) k d = (d, inl Py.AttributeError).
Proof.
  intros H. unfold Py.bind, Py.get. rewrite getattr_eq. unfold dict_get.
  by rewrite H.
Qed.

Ltac get_ok L :=
  erewrite bind_get_ok
    by (cbn [assoc properties String.eqb Ascii.eqb Bool.eqb]; apply L).

(** The arguments [spit] formats, when a marker line has just ended the
    lines [h]. *)
Lemma spit_args_after h :
  (spit_args (attrs_after h)).2
  = match row_values h with
    | Some vs => inr vs
    | None => inl Py.AttributeError
    end.
Proof.
  unfold spit_args, row_values.
  get_ok attrs_after_time_index. get_ok after_time. get_ok after_delta_t.
  get_ok after_courant_mean.
  destruct (last_capture re_courant 1 h) as [mx|] eqn:Emx.
  2: { rewrite bind_get_fail; [done|]. simpl. by rewrite after_courant_max, Emx. }
  erewrite bind_get_ok by (simpl; by rewrite after_courant_max, Emx).
  get_ok after_cont_local. get_ok after_cont_global.
  get_ok after_cont_cumulative. get_ok after_niterations.
  get_ok after_converged.
  destruct (last_capture re_end 0 h) as [ex|] eqn:Eex.
  2: { rewrite bind_get_fail; [done|]. simpl. by rewrite after_execution_time, Eex. }
  erewrite bind_get_ok by (simpl; by rewrite after_execution_time, Eex).
  destruct (last_capture re_end 1 h) as [ck|] eqn:Eck.
  2: { rewrite bind_get_fail; [done|]. simpl. by rewrite after_clock_time, Eck. }
  erewrite bind_get_ok by (simpl; by rewrite after_clock_time, Eck).
  done.
Qed.

(** ** The main loop *)

Lemma spit_args_state (d : gmap string Py.val) : (spit_args d).1 = d.
Proof.
  unfold spit_args, Py.bind, Py.get, Py.ret.
  repeat (match goal with
          | |- context [Py.getattr ?n d] => destruct (Py.getattr n d)
          end; [done|]).
  done.
Qed.

Lemma spit_at ls out rout d :
  spit (parser_at ls out rout d)
  = match (spit_args d).2 with
    | inr vs => (parser_at ls (out ++ [format_row vs]) rout d, inr tt)
    | inl e => (parser_at ls out rout d, inl e)
    end.
Proof.
  unfold spit, Py.bind. rewrite lifts_spit_args.
  cbn [attrs parser_at]. rewrite spit_args_state.
  destruct (spit_args d).2 as [e|vs]; [done|].
  unfold fout_write, with_fout, with_attrs. simpl. by destruct rout.
Qed.

Lemma for_regexps_at line ls out rout d :
  for_regexps line_regexps line (parser_at ls out rout d)
  = if is_end line
    then (parser_at ls out rout (eff re_end w_end line d), inl Py.EndOfItem)
    else (parser_at ls out rout (others line d), inr tt).
Proof.
  rewrite lifts_for_regexps. cbn [attrs parser_at].
  rewrite for_regexps_attrs. by destruct (is_end line).
Qed.

Lemma slurp_nil out rout d :
  slurp (parser_at [] out rout d)
  = (parser_at [] out rout d, inl Py.NoMoreItems).
Proof. done. Qed.

Lemma slurp_other line ls out rout d :
  is_end line = false ->
  slurp (parser_at (line :: ls) out rout d)
  = slurp (parser_at ls out rout (feed d line)).
Proof.
  intros He. unfold slurp, Py.try_except, feed. rewrite He.
  cbn [_fin parser_at slurp_while]. unfold Py.bind.
  change (with_fin ls _) with (parser_at ls out rout d).
  cbn [_line_regexps parser_at].
  rewrite for_regexps_at, He. done.
Qed.

Lemma slurp_end line ls out rout d n :
  is_end line = true ->
  d !! "_time_index" = Some (Py.Int n) ->
  slurp (parser_at (line :: ls) out rout d)
  = (parser_at ls out rout (feed d line), inr tt).
Proof.
  intros He Hn. unfold slurp, Py.try_except, feed. rewrite He.
  cbn [_fin parser_at slurp_while]. unfold Py.bind.
  change (with_fin ls _) with (parser_at ls out rout d).
  cbn [_line_regexps parser_at].
  rewrite for_regexps_at, He.
  unfold incr_time_index, bump. cbn [attrs parser_at].
  rewrite (bump_time_index _ n); [done|].
  by rewrite eff_lookup by auto with writes.
Qed.

(** The loop, from any point of the log: enough rounds end it, with the
    rows and the exception of [trace_from]. *)
Lemma main_loop_trace rout : forall ls h out fuel,
  (length ls < fuel)%nat ->
  exists self',
    main_loop fuel (parser_at ls out rout (attrs_after h))
    = Some (self', (trace_from h ls).2)
    /\ _fout self' = (out ++ (trace_from h ls).1)%list.
Proof.
  induction ls as [|l ls IH]; intros h out fuel Hf;
    (destruct fuel as [|fuel]; [simpl in Hf; lia|]).
  - eexists. cbn [main_loop]. unfold Py.bind. rewrite slurp_nil.
    split; [done|]. simpl. by rewrite app_nil_r.
  - cbn [length] in Hf. cbn [trace_from main_loop]. unfold Py.bind.
    destruct (is_end l) eqn:He.
    + erewrite slurp_end by (done || apply attrs_after_time_index).
      rewrite <- attrs_after_snoc, spit_at.
      destruct (spit_args (attrs_after (h ++ [l]))) as [d' [e|vs]];
        cbn [fst snd].
      * eexists. split; [done|]. simpl. by rewrite app_nil_r.
      * destruct (IH (h ++ [l])%list (out ++ [format_row vs])%list fuel)
          as (self' & Hm & Ho); [lia|].
        exists self'. rewrite Hm, Ho.
        destruct (trace_from (h ++ [l]) ls) as [rows e]. cbn [fst snd].
        split; [done|]. by rewrite <- app_assoc.
    + destruct (IH (h ++ [l])%list out (S fuel)) as (self' & Hm & Ho); [lia|].
      exists self'. split; [|done]. rewrite <- Hm.
      cbn [main_loop]. unfold Py.bind.
      by rewrite slurp_other, attrs_after_snoc.
Qed.

(** ** The rows of a run *)

Lemma init_ok fin rout :
  LogItemParser_init fin rout = inr (parser_at fin [] rout init_attrs).
Proof. reflexivity. Qed.

Lemma trace_from_cons h l ls :
  trace_from h (l :: ls)
  = if is_end l then
      match row_values (h ++ [l]) with
      | Some vs =>
          (format_row vs :: (trace_from (h ++ [l]) ls).1,
           (trace_from (h ++ [l]) ls).2)
      | None => ([], Py.AttributeError)
      end
    else trace_from (h ++ [l]) ls.
Proof.
  cbn [trace_from]. destruct (is_end l); [|done].
  pose proof (spit_args_after (h ++ [l])) as H.
  destruct (spit_args (attrs_after (h ++ [l]))) as [d [e|vs]];
    cbn [snd] in H; destruct (row_values (h ++ [l])); try done.
  - by injection H as ->.
  - injection H as ->. by destruct (trace_from (h ++ [l]) ls).
Qed.

(** A run of the parser on the lines [fin]: it ends, with the header
    and the rows of [trace_from]. *)
Lemma parse_log_trace fin rout p :
  LogItemParser_init fin rout = inr p ->
  exists p',
    parse_log p = Some (p', (trace_from [] fin).2)
    /\ _fout p' = (header +:+ nl) :: (trace_from [] fin).1.
Proof.
  rewrite init_ok. intros [= <-]. unfold parse_log, fout_write.
  change (with_fout _ _)
    with (parser_at fin [header +:+ nl] rout (attrs_after [])).
  cbn [_fin parser_at].
  destruct (main_loop_trace rout fin [] [header +:+ nl] (S (length fin)))
    as (p' & Hm & Ho); [lia|].
  exists p'. by rewrite Hm, Ho.
Qed.

(** Row [i] of the rows for [ls] is the row of the marker line that has
    [i] marker lines before it in [ls]. *)
Lemma trace_row : forall ls h i row,
  (trace_from h ls).1 !! i = Some row ->
  exists pre m rest vs,
    ls = (pre ++ m :: rest)%list /\ is_end m = true /\ count_end pre = i
    /\ row_values (h ++ pre ++ [m]) = Some vs /\ row = format_row vs.
Proof.
  induction ls as [|l ls IH]; intros h i row; [done|].
  rewrite trace_from_cons. destruct (is_end l) eqn:He.
  - destruct (row_values (h ++ [l])) as [vs|] eqn:Hv; [|done].
    cbn [fst]. destruct i as [|i]; simpl.
    + intros [= <-]. by exists [], l, ls, vs.
    + intros H. apply IH in H as (pre & m & rest & vs' & -> & Hm & Hc & Hr & ->).
      exists (l :: pre), m, rest, vs'. split_and!; try done.
      * unfold count_end in *. simpl. rewrite He. simpl. by f_equal.
      * by rewrite <- app_assoc in Hr.
  - intros H. apply IH in H as (pre & m & rest & vs' & -> & Hm & Hc & Hr & ->).
    exists (l :: pre), m, rest, vs'. split_and!; try done.
    * unfold count_end in *. simpl. by rewrite He.
    * by rewrite <- app_assoc in Hr.
Qed.

(** Every data row of a run is the row of a marker line of the input:
    row [i] after the header, of the marker line with [i] marker lines
    before it, from what the log says up to that line. *)
Lemma emitted_row fin rout p p' e i row :
  LogItemParser_init fin rout = inr p ->
  parse_log p = Some (p', e) ->
  _fout p' !! S i = Some row ->
  exists pre m rest vs,
    fin = (pre ++ m :: rest)%list /\ is_end m = true /\ count_end pre = i
    /\ row_values (pre ++ [m]) = Some vs /\ row = format_row vs.
Proof.
  intros Hi Hp Hrow.
  destruct (parse_log_trace _ _ _ Hi) as (p'' & Hp' & Ho).
  rewrite Hp in Hp'. injection Hp' as <- _. rewrite Ho in Hrow.
  by apply (trace_row fin []) in Hrow.
Qed.

(** Lines without a marker after the last one add nothing. *)
Lemma trace_from_no_end tail : forall h,
  Forall (fun l => is_end l = false) tail ->
  trace_from h tail = ([], Py.NoMoreItems).
Proof.
  induction tail as [|l tail IH]; intros h Ht; [done|].
  apply Forall_cons in Ht as [Hl Ht].
  rewrite trace_from_cons, Hl. by apply IH.
Qed.

Lemma trace_from_app_no_end tail : 
  Forall (fun l => is_end l = false) tail ->
  forall pre h, trace_from h (pre ++ tail) = trace_from h pre.
Proof.
  intros Ht. induction pre as [|l pre IH]; intros h.
  - by rewrite trace_from_no_end.
  - cbn [app]. rewrite !trace_from_cons.
    destruct (is_end l); [|apply IH].
    destruct (row_values (h ++ [l])); [|done]. by rewrite IH.
Qed.

(** ** What a marker line adds to the log *)

Lemma count_end_snoc (pre : list string) m :
  is_end m = true -> count_end (pre ++ [m])%list = S (count_end pre).
Proof.
  intros He. unfold count_end.
  rewrite List.filter_app, length_app. simpl. rewrite He. simpl. lia.
Qed.

Lemma last_omap_snoc_None {A} (u : string -> option A) (pre : list string) m :
  u m = None -> last (omap u (pre ++ [m])%list) = last (omap u pre).
Proof. intros H. rewrite omap_app. simpl. by rewrite H, app_nil_r. Qed.

Lemma last_omap_snoc_Some {A} (u : string -> option A) (pre : list string) m a :
  u m = Some a -> last (omap u (pre ++ [m])%list) = Some a.
Proof. intros H. rewrite omap_app. simpl. by rewrite H, last_snoc. Qed.

Lemma last_capture_snoc_other p i (pre : list string) m :
  Re.search p m = None ->
  last_capture p i (pre ++ [m])%list = last_capture p i pre.
Proof.
  intros H. apply last_omap_snoc_None. unfold grp. by rewrite H.
Qed.

Lemma last_capture_snoc_end i (pre : list string) m gs :
  Re.search re_end m = Some gs ->
  last_capture re_end i (pre ++ [m])%list = Some (nth i gs "").
Proof.
  intros H. apply last_omap_snoc_Some. unfold grp. by rewrite H.
Qed.

Lemma conv_of_end m : is_end m = true -> conv_of m = None.
Proof.
  intros He. unfold conv_of, matches.
  by rewrite end_not_notconv, end_not_conv.
Qed.

Lemma niter_of_end m : is_end m = true -> niter_of m = None.
Proof.
  intros He. unfold niter_of, grp.
  by rewrite end_not_notconv, end_not_conv.
Qed.

Lemma is_end_search m :
  is_end m = true -> exists gs, Re.search re_end m = Some gs /\ length gs = 2%nat.
Proof.
  unfold is_end, matches. destruct (Re.search re_end m) as [gs|] eqn:E; [|done].
  intros _. exists gs. split; [done|]. by apply search_length in E.
Qed.

(** The row of the marker line [m] after the lines [pre], in terms of
    what [pre] and [m] say. *)
Lemma row_values_snoc (pre : list string) m vs :
  is_end m = true ->
  row_values (pre ++ [m])%list = Some vs ->
  exists mx gs,
    last_capture re_courant 1 pre = Some mx
    /\ Re.search re_end m = Some gs
    /\ vs = [ Py.Int (Z.of_nat (S (count_end pre)));
              or_default (Py.Int (-1)) (last_capture re_time 0 pre);
              or_default (Py.Int (-1)) (last_capture re_deltaT 0 pre);
              or_default (Py.Int 0) (last_capture re_courant 0 pre);
              Py.Str mx;
              or_default (Py.Int (-1)) (last_capture re_cont 0 pre);
              or_default (Py.Int (-1)) (last_capture re_cont 1 pre);
              or_default (Py.Int (-1)) (last_capture re_cont 2 pre);
              or_default (Py.Int (-1)) (last (omap niter_of pre));
              (if default false (last (omap conv_of pre))
               then Py.Str "1" else Py.Int 0);
              Py.Str (nth 0 gs "");
              Py.Str (nth 1 gs "") ].
Proof.
  intros He. destruct (is_end_search m He) as (gs & Hs & _).
  unfold row_values.
  rewrite count_end_snoc by done.
  rewrite !(last_capture_snoc_end _ _ _ _ Hs).
  rewrite (last_capture_snoc_other re_time) by by apply end_not_time.
  rewrite (last_capture_snoc_other re_deltaT) by by apply end_not_deltaT.
  rewrite !(last_capture_snoc_other re_courant) by by apply end_not_courant.
  rewrite !(last_capture_snoc_other re_cont) by by apply end_not_cont.
  rewrite (last_omap_snoc_None niter_of) by by apply niter_of_end.
  rewrite (last_omap_snoc_None conv_of) by by apply conv_of_end.
  destruct (last_capture re_courant 1 pre) as [mx|]; [|done].
  intros [= <-]. by exists mx, gs.
Qed.

(** Every data row, by the marker line that completes it. *)
Lemma emitted_row_char fin rout p p' e i row :
  LogItemParser_init fin rout = inr p ->
  parse_log p = Some (p', e) ->
  _fout p' !! S i = Some row ->
  exists pre m rest mx gs,
    fin = (pre ++ m :: rest)%list /\ is_end m = true /\ count_end pre = i
    /\ last_capture re_courant 1 pre = Some mx
    /\ Re.search re_end m = Some gs
    /\ row = format_row
         [ Py.Int (Z.of_nat (S i));
           or_default (Py.Int (-1)) (last_capture re_time 0 pre);
           or_default (Py.Int (-1)) (last_capture re_deltaT 0 pre);
           or_default (Py.Int 0) (last_capture re_courant 0 pre);
           Py.Str mx;
           or_default (Py.Int (-1)) (last_capture re_cont 0 pre);
           or_default (Py.Int (-1)) (last_capture re_cont 1 pre);
           or_default (Py.Int (-1)) (last_capture re_cont 2 pre);
           or_default (Py.Int (-1)) (last (omap niter_of pre));
           (if default false (last (omap conv_of pre))
            then Py.Str "1" else Py.Int 0);
           Py.Str (nth 0 gs "");
           Py.Str (nth 1 gs "") ].
Proof.
  intros Hi Hp Hrow.
  destruct (emitted_row _ _ _ _ _ _ _ Hi Hp Hrow)
    as (pre & m & rest & vs & -> & He & Hc & Hv & ->).
  destruct (row_values_snoc _ _ _ He Hv) as (mx & gs & Hmx & Hs & ->).
  exists pre, m, rest, mx, gs. by rewrite Hc.
Qed.

(** * The claims *)

(** ** C1: the round-trip example *)

(** C1, as the code has it: on the six-line example the program writes
    the header line and exactly one data row, and the row is
    [1 0.1 0.001 0.05 0.3 1e-6 2e-6 3e-6 4 1 12.3 13.1]: the counter is
    incremented when the record completes, before the row is written.
    The run ends with status 0. *)
Theorem C1_sample_row (fs : gmap string string) (f r : bool) :
  _run {| input := None; output := None; force := f; residuals := r |}
       {| files := fs; stdin := sample_log |}
  = Some {| files_after := fs;
            stdout := header +:+ nl +:+
              "1 0.1 0.001 0.05 0.3 1e-6 2e-6 3e-6 4 1 12.3 13.1" +:+ nl;
            stderr := "Finished parsing log file." +:+ nl;
            status := inr 0 |}.
Proof. destruct f, r; reflexivity. Qed.

(** C1 as stated fails: the row of the example does not begin with 0. *)
Lemma C1_sample_row_not_zero :
  option_map stdout (_run to_stdout (from_stdin sample_log))
  <> Some (header +:+ nl +:+
           "0 0.1 0.001 0.05 0.3 1e-6 2e-6 3e-6 4 1 12.3 13.1" +:+ nl).
Proof. vm_compute. discriminate. Qed.

(** ** C2: the first column *)

Lemma append_assoc (s1 s2 s3 : string) :
  (s1 +:+ s2) +:+ s3 = s1 +:+ s2 +:+ s3.
Proof.
  induction s1 as [|c s1 IH]; [done|].
  change (String c ((s1 +:+ s2) +:+ s3) = String c (s1 +:+ s2 +:+ s3)).
  by rewrite IH.
Qed.

Lemma format_row_cons v vs :
  format_row (v :: vs)
  = Py.str v +:+ match vs with
                 | [] => nl
                 | _ => " " +:+ format_row vs
                 end.
Proof.
  unfold format_row. destruct vs as [|v' vs]; simpl; [done|].
  by rewrite !append_assoc.
Qed.

(** C2, as the code has it: in every run, the first column of the n-th
    data row is n: 1 for the first completed record, one more for each
    further one, whatever the records hold. *)
Theorem C2_time_index_counts_from_one fin rout p p' e i row :
  LogItemParser_init fin rout = inr p ->
  parse_log p = Some (p', e) ->
  _fout p' !! S i = Some row ->
  exists vs,
    length vs = 11%nat
    /\ row = format_row (Py.Int (Z.of_nat (S i)) :: vs).
Proof.
  intros Hi Hp Hrow.
  destruct (emitted_row_char _ _ _ _ _ _ _ Hi Hp Hrow)
    as (pre & m & rest & mx & gs & _ & _ & _ & _ & _ & ->).
  eexists. split; [|reflexivity]. done.
Qed.

Lemma C2_time_index_witness :
  LogItemParser_init sample_lines None
  = inr (parser_at sample_lines [] None init_attrs)
  /\ parse_log (parser_at sample_lines [] None init_attrs)
     = Some (sample_final, Py.NoMoreItems)
  /\ _fout sample_final !! 1%nat
     = Some ("1 0.1 0.001 0.05 0.3 1e-6 2e-6 3e-6 4 1 12.3 13.1" +:+ nl)
  /\ exists vs,
       length vs = 11%nat
       /\ "1 0.1 0.001 0.05 0.3 1e-6 2e-6 3e-6 4 1 12.3 13.1" +:+ nl
          = format_row (Py.Int (Z.of_nat 1) :: vs).
Proof.
  assert (H1 : LogItemParser_init sample_lines None
               = inr (parser_at sample_lines [] None init_attrs))
    by reflexivity.
  assert (H2 : parse_log (parser_at sample_lines [] None init_attrs)
               = Some (sample_final, Py.NoMoreItems))
    by (vm_compute; reflexivity).
  assert (H3 : _fout sample_final !! 1%nat
     = Some ("1 0.1 0.001 0.05 0.3 1e-6 2e-6 3e-6 4 1 12.3 13.1" +:+ nl))
    by reflexivity.
  repeat (split; [assumption|]).
  exact (C2_time_index_counts_from_one _ _ _ _ _ _ _ H1 H2 H3).
Defined.

(** C2 as stated fails: the first data row of the example has 1 in its
    first column, and no row that begins with 0 is that row. *)
Lemma C2_first_row_is_not_zero :
  ~ (forall fin rout p p' e i row,
       LogItemParser_init fin rout = inr p ->
       parse_log p = Some (p', e) ->
       _fout p' !! S i = Some row ->
       exists vs, row = format_row (Py.Int (Z.of_nat i) :: vs)).
Proof.
  intros H.
  destruct (H sample_lines None _ sample_final Py.NoMoreItems 0%nat
              ("1 0.1 0.001 0.05 0.3 1e-6 2e-6 3e-6 4 1 12.3 13.1" +:+ nl)
              eq_refl) as (vs & Hvs).
  - vm_compute. reflexivity.
  - reflexivity.
  - rewrite format_row_cons in Hvs. vm_compute in Hvs.
    destruct vs; discriminate Hvs.
Qed.

(** ** C10: the two time columns *)

(** C10: the last two values of every data row are the two groups the
    end pattern captures in the marker line that completes that row: the
    end matcher stores both before it raises [EndOfItem], and [spit] runs
    only after [slurp] has caught it. *)
Theorem C10_times_of_the_marker fin rout p p' e i row :
  LogItemParser_init fin rout = inr p ->
  parse_log p = Some (p', e) ->
  _fout p' !! S i = Some row ->
  exists pre m rest gs vs,
    fin = (pre ++ m :: rest)%list /\ count_end pre = i
    /\ Re.search re_end m = Some gs /\ length gs = 2%nat
    /\ row = format_row vs /\ length vs = 12%nat
    /\ vs !! 10%nat = Some (Py.Str (nth 0 gs ""))
    /\ vs !! 11%nat = Some (Py.Str (nth 1 gs "")).
Proof.
  intros Hi Hp Hrow.
  destruct (emitted_row_char _ _ _ _ _ _ _ Hi Hp Hrow)
    as (pre & m & rest & mx & gs & -> & He & Hc & _ & Hs & ->).
  exists pre, m, rest, gs. eexists. split_and!; try done.
  by apply search_length in Hs.
Qed.

Lemma C10_times_witness :
  LogItemParser_init two_records None
  = inr (parser_at two_records [] None init_attrs)
  /\ parse_log (parser_at two_records [] None init_attrs)
     = Some (two_records_final, Py.NoMoreItems)
  /\ _fout two_records_final !! 2%nat
     = Some ("2 0.1 -1 1 2 -1 -1 -1 -1 0 3 4" +:+ nl)
  /\ exists pre m rest gs vs,
       two_records = (pre ++ m :: rest)%list /\ count_end pre = 1%nat
       /\ Re.search re_end m = Some gs /\ length gs = 2%nat
       /\ "2 0.1 -1 1 2 -1 -1 -1 -1 0 3 4" +:+ nl = format_row vs
       /\ length vs = 12%nat
       /\ vs !! 10%nat = Some (Py.Str (nth 0 gs ""))
       /\ vs !! 11%nat = Some (Py.Str (nth 1 gs "")).
Proof.
  assert (H1 : LogItemParser_init two_records None
               = inr (parser_at two_records [] None init_attrs))
    by reflexivity.
  assert (H2 : parse_log (parser_at two_records [] None init_attrs)
               = Some (two_records_final, Py.NoMoreItems))
    by (vm_compute; reflexivity).
  assert (H3 : _fout two_records_final !! 2%nat
               = Some ("2 0.1 -1 1 2 -1 -1 -1 -1 0 3 4" +:+ nl))
    by reflexivity.
  repeat (split; [assumption|]).
  exact (C10_times_of_the_marker _ _ _ _ _ _ _ H1 H2 H3).
Defined.

(** ** C6: the converged column *)

(** C6: the tenth value of every data row is ['1'] when the latest line
    of the log so far that matches one of the two PIMPLE patterns matches
    the converged one, and 0 when it matches the not-converged one or
    there is no such line; it is written as [1] and [0]. *)
Theorem C6_converged_column fin rout p p' e i row :
  LogItemParser_init fin rout = inr p ->
  parse_log p = Some (p', e) ->
  _fout p' !! S i = Some row ->
  exists pre m rest vs c,
    fin = (pre ++ m :: rest)%list /\ is_end m = true /\ count_end pre = i
    /\ row = format_row vs /\ length vs = 12%nat
    /\ vs !! 9%nat = Some c
    /\ c = match last (omap conv_of pre) with
           | Some true => Py.Str "1"
           | Some false | None => Py.Int 0
           end
    /\ Py.str c = match last (omap conv_of pre) with
                  | Some true => "1"
                  | Some false | None => "0"
                  end.
Proof.
  intros Hi Hp Hrow.
  destruct (emitted_row_char _ _ _ _ _ _ _ Hi Hp Hrow)
    as (pre & m & rest & mx & gs & -> & He & Hc & _ & Hs & ->).
  exists pre, m, rest. eexists. eexists. split_and!; try done.
  - by destruct (last (omap conv_of pre)) as [[]|].
  - by destruct (last (omap conv_of pre)) as [[]|].
Qed.

Lemma C6_converged_witness :
  LogItemParser_init sample_lines None
  = inr (parser_at sample_lines [] None init_attrs)
  /\ parse_log (parser_at sample_lines [] None init_attrs)
     = Some (sample_final, Py.NoMoreItems)
  /\ _fout sample_final !! 1%nat
     = Some ("1 0.1 0.001 0.05 0.3 1e-6 2e-6 3e-6 4 1 12.3 13.1" +:+ nl)
  /\ exists pre m rest vs c,
       sample_lines = (pre ++ m :: rest)%list /\ is_end m = true
       /\ count_end pre = 0%nat
       /\ "1 0.1 0.001 0.05 0.3 1e-6 2e-6 3e-6 4 1 12.3 13.1" +:+ nl
          = format_row vs
       /\ length vs = 12%nat
       /\ vs !! 9%nat = Some c
       /\ c = match last (omap conv_of pre) with
              | Some true => Py.Str "1"
              | Some false | None => Py.Int 0
              end
       /\ Py.str c = match last (omap conv_of pre) with
                     | Some true => "1"
                     | Some false | None => "0"
                     end.
Proof.
  assert (H1 : LogItemParser_init sample_lines None
               = inr (parser_at sample_lines [] None init_attrs))
    by reflexivity.
  assert (H2 : parse_log (parser_at sample_lines [] None init_attrs)
               = Some (sample_final, Py.NoMoreItems))
    by (vm_compute; reflexivity).
  assert (H3 : _fout sample_final !! 1%nat
     = Some ("1 0.1 0.001 0.05 0.3 1e-6 2e-6 3e-6 4 1 12.3 13.1" +:+ nl))
    by reflexivity.
  repeat (split; [assumption|]).
  exact (C6_converged_column _ _ _ _ _ _ _ H1 H2 H3).
Defined.

(** ** C3: unmatched fields *)

(** C3, as the code has it: nothing is reset when a record completes, so
    what counts is the log from its start.  In every data row each of
    time, delta_t, courant_number_mean, the three continuity errors and
    niterations is the latest capture of its pattern in the lines before
    the marker line, and its default (-1, and 0 for the Courant mean)
    when no line matched so far; converged is 0 when no PIMPLE line
    matched so far. *)
Theorem C3_defaults_since_the_start fin rout p p' e i row :
  LogItemParser_init fin rout = inr p ->
  parse_log p = Some (p', e) ->
  _fout p' !! S i = Some row ->
  exists pre m rest vs,
    fin = (pre ++ m :: rest)%list /\ is_end m = true /\ count_end pre = i
    /\ row = format_row vs /\ length vs = 12%nat
    /\ vs !! 1%nat
       = Some (or_default (Py.Int (-1)) (last_capture re_time 0 pre))
    /\ vs !! 2%nat
       = Some (or_default (Py.Int (-1)) (last_capture re_deltaT 0 pre))
    /\ vs !! 3%nat
       = Some (or_default (Py.Int 0) (last_capture re_courant 0 pre))
    /\ vs !! 5%nat
       = Some (or_default (Py.Int (-1)) (last_capture re_cont 0 pre))
    /\ vs !! 6%nat
       = Some (or_default (Py.Int (-1)) (last_capture re_cont 1 pre))
    /\ vs !! 7%nat
       = Some (or_default (Py.Int (-1)) (last_capture re_cont 2 pre))
    /\ vs !! 8%nat
       = Some (or_default (Py.Int (-1)) (last (omap niter_of pre)))
    /\ vs !! 9%nat
       = Some (if default false (last (omap conv_of pre))
               then Py.Str "1" else Py.Int 0).
Proof.
  intros Hi Hp Hrow.
  destruct (emitted_row_char _ _ _ _ _ _ _ Hi Hp Hrow)
    as (pre & m & rest & mx & gs & -> & He & Hc & _ & Hs & ->).
  exists pre, m, rest. eexists. split_and!; done.
Qed.

Lemma C3_defaults_witness :
  LogItemParser_init two_records None
  = inr (parser_at two_records [] None init_attrs)
  /\ parse_log (parser_at two_records [] None init_attrs)
     = Some (two_records_final, Py.NoMoreItems)
  /\ _fout two_records_final !! 1%nat
     = Some ("1 0.1 -1 1 2 -1 -1 -1 -1 0 1 2" +:+ nl)
  /\ exists pre m rest vs,
    two_records = (pre ++ m :: rest)%list /\ is_end m = true
    /\ count_end pre = 0%nat
    /\ "1 0.1 -1 1 2 -1 -1 -1 -1 0 1 2" +:+ nl = format_row vs
    /\ length vs = 12%nat
    /\ vs !! 1%nat
       = Some (or_default (Py.Int (-1)) (last_capture re_time 0 pre))
    /\ vs !! 2%nat
       = Some (or_default (Py.Int (-1)) (last_capture re_deltaT 0 pre))
    /\ vs !! 3%nat
       = Some (or_default (Py.Int 0) (last_capture re_courant 0 pre))
    /\ vs !! 5%nat
       = Some (or_default (Py.Int (-1)) (last_capture re_cont 0 pre))
    /\ vs !! 6%nat
       = Some (or_default (Py.Int (-1)) (last_capture re_cont 1 pre))
    /\ vs !! 7%nat
       = Some (or_default (Py.Int (-1)) (last_capture re_cont 2 pre))
    /\ vs !! 8%nat
       = Some (or_default (Py.Int (-1)) (last (omap niter_of pre)))
    /\ vs !! 9%nat
       = Some (if default false (last (omap conv_of pre))
               then Py.Str "1" else Py.Int 0).
Proof.
  assert (H1 : LogItemParser_init two_records None
               = inr (parser_at two_records [] None init_attrs))
    by reflexivity.
  assert (H2 : parse_log (parser_at two_records [] None init_attrs)
               = Some (two_records_final, Py.NoMoreItems))
    by (vm_compute; reflexivity).
  assert (H3 : _fout two_records_final !! 1%nat
               = Some ("1 0.1 -1 1 2 -1 -1 -1 -1 0 1 2" +:+ nl))
    by reflexivity.
  repeat (split; [assumption|]).
  exact (C3_defaults_since_the_start _ _ _ _ _ _ _ H1 H2 H3).
Defined.

(** C3 as stated fails: the second record of [two_records] is its marker
    line alone, which the Time pattern does not match, and its row has
    the time of the first record in the second column, not -1. *)
Lemma C3_second_record_keeps_time :
  parse_log (parser_at two_records [] None init_attrs)
  = Some (two_records_final, Py.NoMoreItems)
  /\ two_records
     = (["Courant Number mean: 1 max: 2" +:+ nl; "Time = 0.1" +:+ nl;
         "ExecutionTime = 1 s  ClockTime = 2 s" +:+ nl]
        ++ ["ExecutionTime = 3 s  ClockTime = 4 s" +:+ nl])%list
  /\ Re.search re_time ("ExecutionTime = 3 s  ClockTime = 4 s" +:+ nl) = None
  /\ _fout two_records_final !! 2%nat
     = Some (format_row
               [Py.Int 2; Py.Str "0.1"; Py.Int (-1); Py.Str "1"; Py.Str "2";
                Py.Int (-1); Py.Int (-1); Py.Int (-1); Py.Int (-1); Py.Int 0;
                Py.Str "3"; Py.Str "4"])
  /\ Py.Str "0.1" <> Py.Int (-1).
Proof. split_and!; done. Qed.

(** ** C9: the check of the constructor *)

(** C9: for a pattern that compiles, the constructor raises [UserWarning]
    exactly when the number of groups of the pattern differs from the
    number of names; otherwise it returns the matcher, whose names are
    as many as its groups.  A matcher is called on a line only once it
    has been constructed. *)
Theorem C9_group_count_check regex var args kw_end kw_match p :
  Re.compile regex = Some p ->
  (LogLineRegexp_init regex var args kw_end kw_match = inl Py.UserWarning
   <-> Re.groups p <> length (var :: args))
  /\ (Re.groups p = length (var :: args) ->
      exists r,
        LogLineRegexp_init regex var args kw_end kw_match = inr r
        /\ _re r = p /\ _vars r = var :: args
        /\ length (_vars r) = Re.groups (_re r)).
Proof.
  intros Hc. unfold LogLineRegexp_init. rewrite Hc.
  destruct (Nat.eqb_spec (Re.groups p) (length (var :: args))) as [E|E];
    simpl.
  - split; [split; [done | intros H; by destruct H]|].
    intros _. eexists. split; [reflexivity|]. by simpl.
  - split; [done|]. intros H. by destruct E.
Qed.

Lemma C9_group_count_witness :
  Re.compile "^deltaT = (.+)$" = Some re_deltaT
  /\ (LogLineRegexp_init "^deltaT = (.+)$" "delta_t" ["time"] None None
      = inl Py.UserWarning
      <-> Re.groups re_deltaT <> length ["delta_t"; "time"])
  /\ (Re.groups re_deltaT = length ["delta_t"; "time"] ->
      exists r,
        LogLineRegexp_init "^deltaT = (.+)$" "delta_t" ["time"] None None
        = inr r
        /\ _re r = re_deltaT /\ _vars r = ["delta_t"; "time"]
        /\ length (_vars r) = Re.groups (_re r)).
Proof.
  assert (H : Re.compile "^deltaT = (.+)$" = Some re_deltaT) by reflexivity.
  split; [exact H|].
  exact (C9_group_count_check "^deltaT = (.+)$" "delta_t" ["time"]
           None None re_deltaT H).
Defined.

(** ** C8: an output file that exists *)

(** C8: with an output path that names an existing file and no force
    flag, [_run] raises [IOError] (exit status 1) with nothing written:
    no file has changed, the named one keeps its contents, and not even
    the header has been produced. *)
Theorem C8_existing_output_refused args w q c :
  output args = Some q ->
  files w !! q = Some c ->
  force args = false ->
  exists r,
    _run args w = Some r
    /\ status r = inl Py.IOError /\ exit_code r = 1
    /\ files_after r = files w /\ files_after r !! q = Some c
    /\ stdout r = "".
Proof.
  intros Ho Hq Hf. exists (aborted w Py.IOError).
  split_and!; try done.
  unfold _run, open_streams. rewrite Ho, Hf, Hq.
  rewrite bool_decide_true by eauto.
  by destruct (match input args with Some _ => _ | None => _ end).
Qed.

Lemma C8_existing_output_witness :
  let args := {| input := None; output := Some "exec-stats.dat";
                 force := false; residuals := false |} in
  let w := {| files := {[ "exec-stats.dat" := "old table" ]};
              stdin := sample_log |} in
  output args = Some "exec-stats.dat"
  /\ files w !! "exec-stats.dat" = Some "old table"
  /\ force args = false
  /\ exists r,
       _run args w = Some r
       /\ status r = inl Py.IOError /\ exit_code r = 1
       /\ files_after r = files w
       /\ files_after r !! "exec-stats.dat" = Some "old table"
       /\ stdout r = "".
Proof.
  intros args w.
  assert (H1 : output args = Some "exec-stats.dat") by reflexivity.
  assert (H2 : files w !! "exec-stats.dat" = Some "old table")
    by reflexivity.
  assert (H3 : force args = false) by reflexivity.
  repeat (split; [assumption|]).
  exact (C8_existing_output_refused args w _ _ H1 H2 H3).
Defined.

(** ** C5: the end of the input *)

Lemma concat_all_singleton s : concat_all [s] = s.
Proof. done. Qed.

(** C5: lines that follow the last marker line add nothing.  A run on
    [pre ++ tail], where no line of [tail] is a marker line, writes what
    the parser writes on [pre] alone and ends as it does there; when that
    is the end of the input ([NoMoreItems]), the status is 0; and with no
    marker line at all the output is the header line alone, with status
    0. *)
Theorem C5_tail_without_marker args w fs (pre tail : list string) :
  open_streams args w = inr (fs, (pre ++ tail)%list) ->
  Forall (fun l => is_end l = false) tail ->
  exists r p q e,
    _run args w = Some r
    /\ LogItemParser_init pre (rout_of args) = inr p
    /\ parse_log p = Some (q, e)
    /\ written args r = concat_all (_fout q)
    /\ status r = status_of e
    /\ (e = Py.NoMoreItems -> status r = inr 0 /\ exit_code r = 0)
    /\ (pre = [] ->
        written args r = header +:+ nl
        /\ status r = inr 0 /\ exit_code r = 0).
Proof.
  intros Hopen Ht.
  destruct (parse_log_trace (pre ++ tail) (rout_of args) _ (init_ok _ _))
    as (q1 & Hq1 & Ho1).
  destruct (parse_log_trace pre (rout_of args) _ (init_ok _ _))
    as (q & Hq & Ho).
  rewrite trace_from_app_no_end in Hq1, Ho1 by done.
  eexists. exists (parser_at pre [] (rout_of args) init_attrs), q.
  eexists. split.
  { unfold _run. rewrite Hopen, init_ok, Hq1. reflexivity. }
  split; [apply init_ok|]. split; [exact Hq|].
  assert (Hw : forall x y : gmap string string,
             written args
               {| files_after := match output args with
                                 | Some q' => <[q' := concat_all (_fout q1)]> x
                                 | None => x
                                 end;
                  stdout := match output args with
                            | Some _ => ""
                            | None => concat_all (_fout q1)
                            end;
                  stderr := match (trace_from [] pre).2 with
                            | Py.NoMoreItems =>
                                "Finished parsing log file." +:+ nl
                            | _ => ""
                            end;
                  status := status_of (trace_from [] pre).2 |}
             = concat_all (_fout q)).
  { intros x _. unfold written. simpl. rewrite Ho1, Ho.
    destruct (output args); [|done]. by rewrite lookup_insert_eq. }
  split; [apply Hw; exact fs|]. split; [done|].
  split.
  - intros He. unfold exit_code. simpl. by rewrite He.
  - intros ->. split; [|done].
    rewrite (Hw fs fs), Ho. done.
Qed.

Lemma C5_tail_witness :
  let w := from_stdin (sample_log +:+ "Time = 0.2" +:+ nl) in
  open_streams to_stdout w
  = inr (∅, (sample_lines ++ ["Time = 0.2" +:+ nl])%list)
  /\ Forall (fun l => is_end l = false) ["Time = 0.2" +:+ nl]
  /\ exists r p q e,
       _run to_stdout w = Some r
       /\ LogItemParser_init sample_lines (rout_of to_stdout) = inr p
       /\ parse_log p = Some (q, e)
       /\ written to_stdout r = concat_all (_fout q)
       /\ status r = status_of e
       /\ (e = Py.NoMoreItems -> status r = inr 0 /\ exit_code r = 0)
       /\ (sample_lines = [] ->
           written to_stdout r = header +:+ nl
           /\ status r = inr 0 /\ exit_code r = 0).
Proof.
  intros w.
  assert (H1 : open_streams to_stdout w
               = inr (∅, (sample_lines ++ ["Time = 0.2" +:+ nl])%list))
    by reflexivity.
  assert (H2 : Forall (fun l => is_end l = false) ["Time = 0.2" +:+ nl])
    by (by constructor).
  repeat (split; [assumption|]).
  exact (C5_tail_without_marker to_stdout w ∅ sample_lines _ H1 H2).
Defined.

(** ** C7: the order of the matchers *)

Lemma evaluated_cons_ok r rs line (self : LogItemParser) d' b :
  LogLineRegexp_call r line (attrs self) = (d', inr b) ->
  evaluated (r :: rs) line self
  = r :: evaluated rs line (with_attrs d' self).
Proof.
  intros H. cbn [evaluated]. by rewrite lifts_call, H.
Qed.

Lemma evaluated_cons_raise r rs line (self : LogItemParser) d' e :
  LogLineRegexp_call r line (attrs self) = (d', inl e) ->
  evaluated (r :: rs) line self = [r].
Proof.
  intros H. cbn [evaluated]. by rewrite lifts_call, H.
Qed.

(** C7, as the code has it: the end matcher is the first of the seven,
    and the only one with the end flag.  On a line it does not match,
    all seven are called; on a line it matches, it alone is called: it
    raises [EndOfItem] and the loop over the list stops there. *)
Theorem C7_end_matcher_first fin rout p :
  LogItemParser_init fin rout = inr p ->
  exists r rs,
    _line_regexps p = r :: rs /\ length rs = 6%nat
    /\ _regex r = "^ExecutionTime = (.+) s  ClockTime = (.+) s$"
    /\ _end r = true
    /\ Forall (fun r' => _end r' = false) rs
    /\ forall line (self : LogItemParser),
         evaluated (r :: rs) line self
         = if matches (_re r) line then [r] else r :: rs.
Proof.
  rewrite init_ok. intros [= <-].
  exists r_end, [r_courant; r_deltaT; r_time; r_cont; r_conv; r_notconv].
  split_and!; try done.
  - by repeat constructor.
  - intros line self. change (_re r_end) with re_end.
    destruct (matches re_end line) eqn:He.
    + eapply evaluated_cons_raise. rewrite call_end, He. reflexivity.
    + erewrite evaluated_cons_ok by (rewrite call_end, He; reflexivity).
      erewrite evaluated_cons_ok by apply call_courant.
      erewrite evaluated_cons_ok by apply call_deltaT.
      erewrite evaluated_cons_ok by apply call_time.
      erewrite evaluated_cons_ok by apply call_cont.
      erewrite evaluated_cons_ok by apply call_conv.
      erewrite evaluated_cons_ok by apply call_notconv.
      reflexivity.
Qed.

Lemma C7_end_matcher_witness :
  LogItemParser_init sample_lines None
  = inr (parser_at sample_lines [] None init_attrs)
  /\ exists r rs,
       _line_regexps (parser_at sample_lines [] None init_attrs) = r :: rs
       /\ length rs = 6%nat
       /\ _regex r = "^ExecutionTime = (.+) s  ClockTime = (.+) s$"
       /\ _end r = true
       /\ Forall (fun r' => _end r' = false) rs
       /\ forall line (self : LogItemParser),
            evaluated (r :: rs) line self
            = if matches (_re r) line then [r] else r :: rs.
Proof.
  assert (H : LogItemParser_init sample_lines None
              = inr (parser_at sample_lines [] None init_attrs))
    by reflexivity.
  split; [exact H|].
  exact (C7_end_matcher_first sample_lines None _ H).
Defined.

(** C7 as stated fails: in the list of a fresh parser the last matcher
    has no end flag and the first one has it, and on a marker line one
    matcher of the seven is called. *)
Lemma C7_end_matcher_not_last :
  exists p,
    LogItemParser_init [] None = inr p
    /\ length (_line_regexps p) = 7%nat
    /\ _end <$> last (_line_regexps p) = Some false
    /\ _end <$> head (_line_regexps p) = Some true
    /\ length (evaluated (_line_regexps p)
                 ("ExecutionTime = 1 s  ClockTime = 2 s" +:+ nl) p) = 1%nat.
Proof. eexists. split; [reflexivity|]. split_and!; reflexivity. Qed.

(** ** C4: captures are stored as text *)

(** C4, as the code has it: when a matcher of the parser matches a line,
    the attribute named by each of its names reads afterwards as the
    string its group captured, as it stands: no capture is converted to
    a number, and the call ends in [True] or [EndOfItem], never in an
    error.  There are as many groups as names. *)
Theorem C4_captures_stored_as_text fin rout p r line
  (self : LogItemParser) gs i name :
  LogItemParser_init fin rout = inr p ->
  r ∈ _line_regexps p ->
  Re.search (_re r) line = Some gs ->
  _vars r !! i = Some name ->
  exists self' res,
    LogLineRegexp_call r line self = (self', res)
    /\ Py.getattr name self' = inr (Py.Str (nth i gs ""))
    /\ (res = inr true \/ res = inl Py.EndOfItem)
    /\ length gs = length (_vars r).
Proof.
  rewrite init_ok. intros [= <-]. cbn [_line_regexps parser_at].
  change line_regexps
    with [r_end; r_courant; r_deltaT; r_time; r_cont; r_conv; r_notconv].
  intros Hr Hs Hv. rewrite lifts_call.
  pose proof (search_length _ _ _ Hs) as Hl.
  repeat (apply elem_of_cons in Hr as [->|Hr]); [..|by apply elem_of_nil in Hr];
    [ rewrite call_end | rewrite call_courant | rewrite call_deltaT
    | rewrite call_time | rewrite call_cont | rewrite call_conv
    | rewrite call_notconv ];
    unfold eff, matches;
    match type of Hs with
    | Re.search ?a _ = _ =>
        match goal with
        | |- context [Re.search ?b line] => change b with a
        end
    end;
    rewrite Hs; cbn [fst snd];
    (do 2 eexists; split; [reflexivity|]);
    (split; [|split; [by auto|exact Hl]]);
    change (Py.getattr name (with_attrs ?d self)) with (Py.getattr name d);
    rewrite getattr_eq;
    repeat (destruct i as [|i]; [injection Hv as <-|]); try done;
    cbn [assoc properties String.eqb Ascii.eqb Bool.eqb foldl fst snd
         w_end w_courant w_deltaT w_time w_cont w_conv w_notconv];
    unfold dict_get, group;
    repeat (rewrite lookup_insert_eq || rewrite lookup_insert_ne by done);
    reflexivity.
Qed.

Lemma C4_captures_witness :
  let self := parser_at [] [] None init_attrs in
  LogItemParser_init [] None = inr self
  /\ r_time ∈ _line_regexps self
  /\ Re.search (_re r_time) ("Time = abc" +:+ nl) = Some ["abc"]
  /\ _vars r_time !! 0%nat = Some "time"
  /\ exists self' res,
       LogLineRegexp_call r_time ("Time = abc" +:+ nl) self = (self', res)
       /\ Py.getattr "time" self' = inr (Py.Str (nth 0 ["abc"] ""))
       /\ (res = inr true \/ res = inl Py.EndOfItem)
       /\ length ["abc"] = length (_vars r_time).
Proof.
  intros self.
  assert (H1 : LogItemParser_init [] None = inr self) by reflexivity.
  assert (H2 : r_time ∈ _line_regexps self).
  { change (_line_regexps self)
      with [r_end; r_courant; r_deltaT; r_time; r_cont; r_conv; r_notconv].
    do 3 apply list_elem_of_further. apply list_elem_of_here. }
  assert (H3 : Re.search (_re r_time) ("Time = abc" +:+ nl) = Some ["abc"])
    by reflexivity.
  assert (H4 : _vars r_time !! 0%nat = Some "time") by reflexivity.
  repeat (split; [assumption|]).
  exact (C4_captures_stored_as_text [] None self r_time _ self _ _ _
           H1 H2 H3 H4).
Defined.

(** C4 as stated fails: on a record whose captures are words, the run
    does not abort: the words are in the row, and the status is 0. *)
Lemma C4_words_are_not_rejected :
  _run to_stdout (from_stdin words_log)
  = Some {| files_after := ∅;
            stdout := header +:+ nl +:+
              "1 abc -1 foo bar -1 -1 -1 -1 0 x y" +:+ nl;
            stderr := "Finished parsing log file." +:+ nl;
            status := inr 0 |}.
Proof. reflexivity. Qed.
(** * Further properties of the program *)

(** ** The command line of [_run] *)

(** A run whose streams open is the run of the parser on the lines of
    its input: the rows and the final exception of [trace_from]. *)
Lemma run_trace args w fs fin :
  open_streams args w = inr (fs, fin) ->
  _run args w
  = Some {| files_after :=
              match output args with
              | Some q =>
                  <[q := concat_all ((header +:+ nl) :: (trace_from [] fin).1)]> fs
              | None => fs
              end;
            stdout :=
              match output args with
              | Some _ => ""
              | None => concat_all ((header +:+ nl) :: (trace_from [] fin).1)
              end;
            stderr :=
              match (trace_from [] fin).2 with
              | Py.NoMoreItems => "Finished parsing log file." +:+ nl
              | _ => ""
              end;
            status := status_of (trace_from [] fin).2 |}.
Proof.
  intros Hopen. unfold _run. rewrite Hopen, init_ok.
  destruct (parse_log_trace fin (rout_of args) _ (init_ok _ _))
    as (q & Hq & Ho).
  by rewrite Hq, Ho.
Qed.

(** X1: an input path that names no file makes [_run] raise [IOError]
    at once, whatever the other options are: exit status 1, no file
    changed (the output file is neither created nor truncated), nothing
    written. *)
Theorem X1_missing_input_refused args w p :
  input args = Some p ->
  files w !! p = None ->
  exists r,
    _run args w = Some r
    /\ status r = inl Py.IOError /\ exit_code r = 1
    /\ files_after r = files w /\ stdout r = "".
Proof.
  intros Hi Hp. exists (aborted w Py.IOError). split_and!; try done.
  unfold _run, open_streams. rewrite Hi, Hp.
  rewrite bool_decide_false; [done|]. by intros [x Hx].
Qed.

Lemma X1_missing_input_witness :
  let args := {| input := Some "log"; output := Some "exec-stats.dat";
                 force := true; residuals := false |} in
  let w := {| files := {[ "exec-stats.dat" := "old table" ]};
              stdin := sample_log |} in
  input args = Some "log"
  /\ files w !! "log" = None
  /\ exists r,
       _run args w = Some r
       /\ status r = inl Py.IOError /\ exit_code r = 1
       /\ files_after r = files w /\ stdout r = "".
Proof.
  intros args w.
  assert (H1 : input args = Some "log") by reflexivity.
  assert (H2 : files w !! "log" = None) by reflexivity.
  repeat (split; [assumption|]).
  exact (X1_missing_input_refused args w _ H1 H2).
Defined.

(** X2: reading the log from a file with [-i] is reading its contents
    from standard input: with no output file, the two runs have the same
    result. *)
Theorem X2_input_file_is_stdin args w p text :
  input args = Some p ->
  files w !! p = Some text ->
  output args = None ->
  _run args w = _run (set_input None args) (set_stdin text w).
Proof.
  intros Hi Hp Ho.
  rewrite (run_trace args w (files w) (readlines text)).
  - rewrite (run_trace (set_input None args) (set_stdin text w)
               (files w) (readlines text)); [done|].
    unfold open_streams. simpl. by rewrite Ho.
  - unfold open_streams. rewrite Hi, Ho, Hp.
    by rewrite bool_decide_true by eauto.
Qed.

Lemma X2_input_file_witness :
  let args := {| input := Some "log"; output := None;
                 force := false; residuals := false |} in
  let w := {| files := {[ "log" := sample_log ]}; stdin := "" |} in
  input args = Some "log"
  /\ files w !! "log" = Some sample_log
  /\ output args = None
  /\ _run args w = _run (set_input None args) (set_stdin sample_log w).
Proof.
  intros args w.
  assert (H1 : input args = Some "log") by reflexivity.
  assert (H2 : files w !! "log" = Some sample_log) by reflexivity.
  assert (H3 : output args = None) by reflexivity.
  split; [exact H1|]. split; [exact H2|]. split; [exact H3|].
  exact (X2_input_file_is_stdin args w _ _ H1 H2 H3).
Defined.

(** X3: writing to a file with [-o]: when the path is free, or the force
    flag is given, and the input is another file or standard input, the
    file ends up holding exactly what the same run without [-o] writes
    to standard output, whatever it held before; standard output stays
    empty, every other file is as it was, and the status is the same. *)
Theorem X3_output_file_holds_the_table args w q :
  output args = Some q ->
  force args = true \/ files w !! q = None ->
  (forall p, input args = Some p -> p <> q /\ is_Some (files w !! p)) ->
  exists r r0,
    _run args w = Some r
    /\ _run (set_output None args) w = Some r0
    /\ files_after r !! q = Some (stdout r0)
    /\ stdout r = ""
    /\ (forall q', q' <> q -> files_after r !! q' = files w !! q')
    /\ files_after r0 = files w
    /\ status r = status r0.
Proof.
  intros Ho Hf Hi.
  set (fin := match input args with
              | Some p => readlines (default "" (files w !! p))
              | None => readlines (stdin w)
              end).
  assert (H1 : open_streams args w = inr (<[q := ""]> (files w), fin)).
  { unfold open_streams, fin. rewrite Ho.
    destruct (input args) as [p|] eqn:Ep.
    - destruct (Hi p eq_refl) as [Hne Hp].
      rewrite bool_decide_true by done. cbn [negb].
      rewrite lookup_insert_ne by done.
      destruct Hf as [->| ->]; [by rewrite andb_false_r|].
      rewrite bool_decide_false; [done|]. by intros [x Hx].
    - destruct Hf as [->| ->]; [by rewrite andb_false_r|].
      rewrite bool_decide_false; [done|]. by intros [x Hx]. }
  assert (H2 : open_streams (set_output None args) w = inr (files w, fin)).
  { unfold open_streams, fin. simpl.
    destruct (input args) as [p|] eqn:Ep; [|done].
    destruct (Hi p eq_refl) as [Hne Hp].
    by rewrite bool_decide_true by done. }
  do 2 eexists.
  split; [exact (run_trace _ _ _ _ H1)|].
  split; [exact (run_trace _ _ _ _ H2)|].
  rewrite Ho. simpl. split_and!; try done.
  - by rewrite lookup_insert_eq.
  - intros q' Hne. by rewrite !lookup_insert_ne by done.
Qed.

Lemma X3_output_file_witness :
  let args := {| input := None; output := Some "exec-stats.dat";
                 force := true; residuals := false |} in
  let w := {| files := {[ "exec-stats.dat" := "old table" ]};
              stdin := sample_log |} in
  output args = Some "exec-stats.dat"
  /\ (force args = true \/ files w !! "exec-stats.dat" = None)
  /\ exists r r0,
       _run args w = Some r
       /\ _run (set_output None args) w = Some r0
       /\ files_after r !! "exec-stats.dat" = Some (stdout r0)
       /\ stdout r = ""
       /\ (forall q', q' <> "exec-stats.dat" ->
                      files_after r !! q' = files w !! q')
       /\ files_after r0 = files w
       /\ status r = status r0.
Proof.
  intros args w.
  assert (H1 : output args = Some "exec-stats.dat") by reflexivity.
  assert (H2 : force args = true \/ files w !! "exec-stats.dat" = None)
    by (by left).
  assert (H3 : forall p, input args = Some p ->
                         p <> "exec-stats.dat" /\ is_Some (files w !! p))
    by (intros p [=]).
  repeat (split; [assumption|]).
  exact (X3_output_file_holds_the_table args w _ H1 H2 H3).
Defined.

(** X4: the residuals flag changes nothing: with it or without it, a run
    leaves the same files, the same output and the same status. *)
Theorem X4_residuals_flag_is_inert args w b :
  _run (set_residuals b args) w = _run args w.
Proof.
  destruct (open_streams args w) as [e|[fs fin]] eqn:Hopen.
  - unfold _run.
    change (open_streams (set_residuals b args) w)
      with (open_streams args w).
    by rewrite Hopen.
  - rewrite (run_trace args w fs fin Hopen).
    by rewrite (run_trace (set_residuals b args) w fs fin Hopen).
Qed.

(** ** How a run ends *)

Lemma trace_from_skip : forall (pre : list string) h ls,
  Forall (fun l => is_end l = false) pre ->
  trace_from h (pre ++ ls) = trace_from (h ++ pre) ls.
Proof.
  induction pre as [|l pre IH]; intros h ls Hp.
  - by rewrite app_nil_r.
  - apply Forall_cons in Hp as [Hl Hp]. cbn [app].
    rewrite trace_from_cons, Hl, IH by done.
    by rewrite <- app_assoc.
Qed.

Lemma last_capture_None p i (h : list string) :
  Forall (fun l => matches p l = false) h -> last_capture p i h = None.
Proof.
  intros H. unfold last_capture.
  assert (E : omap (grp p i) h = []); [|by rewrite E].
  induction H as [|l h Hl _ IH]; [done|].
  change (omap (grp p i) (l :: h))
    with (match grp p i l with
          | Some y => y :: omap (grp p i) h
          | None => omap (grp p i) h
          end).
  unfold matches in Hl. unfold grp at 1.
  destruct (Re.search p l); [done|]. apply IH.
Qed.


(** A marker line gets its row exactly when a Courant line has come
    before it. *)
Lemma row_values_is_Some (h : list string) m :
  is_end m = true ->
  is_Some (row_values (h ++ [m])) <-> is_Some (last_capture re_courant 1 h).
Proof.
  intros He. destruct (is_end_search m He) as (gs & Hs & _).
  unfold row_values.
  rewrite !(last_capture_snoc_end _ _ _ _ Hs).
  rewrite !(last_capture_snoc_other re_courant) by by apply end_not_courant.
  destruct (last_capture re_courant 1 h); split; intros [x Hx]; eauto; done.
Qed.


(** X5: when the first marker line of the input has no Courant line
    before it, the run stops there with [AttributeError]: the parser has
    no attribute [courant_number_max] until a Courant line sets it, and
    [spit] reads it.  The output is the header line alone and the exit
    status is 1, whatever follows in the input. *)
Theorem X5_marker_before_courant args w fs (pre : list string) m rest :
  open_streams args w = inr (fs, (pre ++ m :: rest)%list) ->
  is_end m = true ->
  Forall (fun l => is_end l = false) pre ->
  Forall (fun l => matches re_courant l = false) pre ->
  exists r,
    _run args w = Some r
    /\ status r = inl Py.AttributeError /\ exit_code r = 1
    /\ written args r = header +:+ nl
    /\ stderr r = "".
Proof.
  intros Hopen He Hpre Hc.
  assert (Ht : trace_from [] (pre ++ m :: rest) = ([], Py.AttributeError)).
  { rewrite trace_from_skip by done. rewrite trace_from_cons, He.
    cbn [app].
    destruct (row_values (pre ++ [m])) as [vs|] eqn:Hv; [|done].
    assert (Hs : is_Some (row_values (pre ++ [m]))) by eauto.
    apply row_values_is_Some in Hs as [g Hg]; [|done].
    by rewrite last_capture_None in Hg. }
  eexists. split; [exact (run_trace _ _ _ _ Hopen)|].
  rewrite Ht. unfold written, exit_code. simpl.
  split_and!; try done.
  destruct (output args); [|done]. simpl. by rewrite lookup_insert_eq.
Qed.

Lemma X5_marker_before_courant_witness :
  let text := "Time = 0.1" +:+ nl +:+
              "ExecutionTime = 1 s  ClockTime = 2 s" +:+ nl +:+
              "Courant Number mean: 1 max: 2" +:+ nl in
  open_streams to_stdout (from_stdin text)
  = inr (∅, (["Time = 0.1" +:+ nl]
             ++ ("ExecutionTime = 1 s  ClockTime = 2 s" +:+ nl)
             :: ["Courant Number mean: 1 max: 2" +:+ nl])%list)
  /\ is_end ("ExecutionTime = 1 s  ClockTime = 2 s" +:+ nl) = true
  /\ exists r,
       _run to_stdout (from_stdin text) = Some r
       /\ status r = inl Py.AttributeError /\ exit_code r = 1
       /\ written to_stdout r = header +:+ nl
       /\ stderr r = "".
Proof.
  intros text.
  assert (H1 : open_streams to_stdout (from_stdin text)
    = inr (∅, (["Time = 0.1" +:+ nl]
               ++ ("ExecutionTime = 1 s  ClockTime = 2 s" +:+ nl)
               :: ["Courant Number mean: 1 max: 2" +:+ nl])%list))
    by reflexivity.
  assert (H2 : is_end ("ExecutionTime = 1 s  ClockTime = 2 s" +:+ nl) = true)
    by reflexivity.
  assert (H3 : Forall (fun l => is_end l = false) ["Time = 0.1" +:+ nl])
    by (by constructor).
  assert (H4 : Forall (fun l => matches re_courant l = false)
                 ["Time = 0.1" +:+ nl])
    by (by constructor).
  split; [exact H1|]. split; [exact H2|].
  exact (X5_marker_before_courant to_stdout (from_stdin text) ∅ _ _ _
           H1 H2 H3 H4).
Defined.



(** ** Lines that no pattern matches *)

Lemma unrecognised_search line :
  recognised line = false ->
  Re.search re_end line = None /\ Re.search re_courant line = None
  /\ Re.search re_deltaT line = None /\ Re.search re_time line = None
  /\ Re.search re_cont line = None /\ Re.search re_conv line = None
  /\ Re.search re_notconv line = None.
Proof.
  unfold recognised.
  change line_regexps
    with [r_end; r_courant; r_deltaT; r_time; r_cont; r_conv; r_notconv].
  cbn [existsb].
  change (_re r_end) with re_end. change (_re r_courant) with re_courant.
  change (_re r_deltaT) with re_deltaT. change (_re r_time) with re_time.
  change (_re r_cont) with re_cont. change (_re r_conv) with re_conv.
  change (_re r_notconv) with re_notconv.
  unfold matches. intros H.
  repeat match goal with
         | H : context [Re.search ?p line] |- _ =>
             destruct (Re.search p line); [done|]
         end.
  done.
Qed.

Lemma omap_filter {A} (u : string -> option A) (f : string -> bool) h :
  (forall l, f l = false -> u l = None) ->
  omap u (List.filter f h) = omap u h.
Proof.
  intros Hu. induction h as [|l h IH]; [done|].
  cbn [List.filter].
  change (omap u (l :: h))
    with (match u l with Some y => y :: omap u h | None => omap u h end).
  destruct (f l) eqn:Hf.
  - change (omap u (l :: List.filter f h))
      with (match u l with
            | Some y => y :: omap u (List.filter f h)
            | None => omap u (List.filter f h)
            end).
    by rewrite IH.
  - by rewrite (Hu l Hf).
Qed.

Lemma last_capture_filter p i h :
  (forall l, recognised l = false -> Re.search p l = None) ->
  last_capture p i (List.filter recognised h) = last_capture p i h.
Proof.
  intros Hp. unfold last_capture. rewrite omap_filter; [done|].
  intros l Hl. unfold grp. by rewrite (Hp l Hl).
Qed.

Lemma count_end_filter h :
  count_end (List.filter recognised h) = count_end h.
Proof.
  unfold count_end. induction h as [|l h IH]; [done|].
  cbn [List.filter]. destruct (recognised l) eqn:Hr.
  - cbn [List.filter]. destruct (is_end l); simpl; by rewrite IH.
  - apply unrecognised_search in Hr as (He & _).
    unfold is_end, matches. by rewrite He.
Qed.

Lemma row_values_filter h :
  row_values (List.filter recognised h) = row_values h.
Proof.
  unfold row_values.
  rewrite count_end_filter.
  rewrite !(last_capture_filter re_courant), !(last_capture_filter re_end),
    (last_capture_filter re_time), (last_capture_filter re_deltaT),
    !(last_capture_filter re_cont)
    by (intros l Hl; by apply unrecognised_search in Hl as (?&?&?&?&?&?&?)).
  rewrite (omap_filter niter_of), (omap_filter conv_of); [done|..].
  - intros l Hl. apply unrecognised_search in Hl as (?&?&?&?&?&Hc&Hn).
    unfold conv_of, matches. by rewrite Hc, Hn.
  - intros l Hl. apply unrecognised_search in Hl as (?&?&?&?&?&Hc&Hn).
    unfold niter_of, grp. by rewrite Hc, Hn.
Qed.

Lemma trace_from_filter : forall ls h,
  trace_from h ls
  = trace_from (List.filter recognised h) (List.filter recognised ls).
Proof.
  induction ls as [|l ls IH]; intros h; [done|].
  rewrite trace_from_cons, (IH (h ++ [l])%list), List.filter_app.
  rewrite <- (row_values_filter (h ++ [l])), List.filter_app.
  cbn [List.filter]. destruct (recognised l) eqn:Hr.
  - by rewrite trace_from_cons.
  - apply unrecognised_search in Hr as (He & _).
    unfold is_end, matches. by rewrite He, app_nil_r.
Qed.

(** X7: lines that match none of the seven patterns do not count:
    dropping them all from the input changes neither what the parser
    writes nor how its run ends. *)
Theorem X7_unrecognised_lines_ignored fin rout p p0 :
  LogItemParser_init fin rout = inr p ->
  LogItemParser_init (List.filter recognised fin) rout = inr p0 ->
  exists q q0 e,
    parse_log p = Some (q, e)
    /\ parse_log p0 = Some (q0, e)
    /\ _fout q = _fout q0.
Proof.
  intros Hp Hp0.
  destruct (parse_log_trace _ _ _ Hp) as (q & Hq & Ho).
  destruct (parse_log_trace _ _ _ Hp0) as (q0 & Hq0 & Ho0).
  pose proof (trace_from_filter fin []) as E. cbn [List.filter] in E.
  rewrite <- E in Hq0, Ho0.
  exists q, q0. eexists. split; [exact Hq|]. split; [exact Hq0|].
  by rewrite Ho, Ho0.
Qed.

Lemma X7_unrecognised_lines_witness :
  let fin := ("Starting time loop" +:+ nl) :: two_records in
  LogItemParser_init fin None = inr (parser_at fin [] None init_attrs)
  /\ LogItemParser_init (List.filter recognised fin) None
     = inr (parser_at two_records [] None init_attrs)
  /\ exists q q0 e,
       parse_log (parser_at fin [] None init_attrs) = Some (q, e)
       /\ parse_log (parser_at two_records [] None init_attrs)
          = Some (q0, e)
       /\ _fout q = _fout q0.
Proof.
  intros fin.
  assert (H1 : LogItemParser_init fin None
               = inr (parser_at fin [] None init_attrs)) by reflexivity.
  assert (H2 : LogItemParser_init (List.filter recognised fin) None
               = inr (parser_at two_records [] None init_attrs))
    by reflexivity.
  split; [exact H1|]. split; [exact H2|].
  exact (X7_unrecognised_lines_ignored fin None _ _ H1 H2).
Defined.

(** ** A log that goes on *)

Lemma trace_from_app : forall (a : list string) h b,
  trace_from h (a ++ b)
  = match (trace_from h a).2 with
    | Py.NoMoreItems =>
        (((trace_from h a).1 ++ (trace_from (h ++ a) b).1)%list,
         (trace_from (h ++ a) b).2)
    | _ => trace_from h a
    end.
Proof.
  induction a as [|l a IH]; intros h b.
  - cbn [app trace_from fst snd]. rewrite app_nil_r.
    by destruct (trace_from h b).
  - cbn [app]. rewrite !trace_from_cons.
    destruct (is_end l).
    + destruct (row_values (h ++ [l])); [|done].
      rewrite IH, <- app_assoc. cbn [app].
      destruct (trace_from (h ++ [l]) a) as [ra ea]. cbn [fst snd].
      by destruct ea.
    + rewrite IH, <- app_assoc. done.
Qed.

(** X8: the table grows with the log: what the parser writes on
    [fin ++ more] begins with what it writes on [fin]; and when the run
    on [fin] does not reach the end of its input, the run on
    [fin ++ more] stops at the same point, with the same exception and
    nothing more written. *)
Theorem X8_output_extends fin more rout p p' :
  LogItemParser_init fin rout = inr p ->
  LogItemParser_init (fin ++ more) rout = inr p' ->
  exists q q' e e' k,
    parse_log p = Some (q, e)
    /\ parse_log p' = Some (q', e')
    /\ _fout q' = (_fout q ++ k)%list
    /\ (e <> Py.NoMoreItems -> e' = e /\ k = []).
Proof.
  intros Hp Hp'.
  destruct (parse_log_trace _ _ _ Hp) as (q & Hq & Ho).
  destruct (parse_log_trace _ _ _ Hp') as (q' & Hq' & Ho').
  rewrite trace_from_app in Hq', Ho'.
  destruct (trace_from [] fin) as [rows e]. cbn [fst snd] in *.
  exists q, q', e.
  destruct (decide (e = Py.NoMoreItems)) as [->|Hne].
  - exists (trace_from ([] ++ fin) more).2, (trace_from ([] ++ fin) more).1.
    split; [exact Hq|]. split; [exact Hq'|].
    split; [by rewrite Ho', Ho | done].
  - exists e, [].
    assert (E : match e with
                | Py.NoMoreItems =>
                    ((rows ++ (trace_from ([] ++ fin) more).1)%list,
                     (trace_from ([] ++ fin) more).2)
                | _ => (rows, e)
                end = (rows, e)) by (by destruct e).
    rewrite E in Hq', Ho'. cbn [fst snd] in *.
    split; [exact Hq|]. split; [exact Hq'|].
    split; [by rewrite Ho', Ho, app_nil_r | done].
Qed.

Lemma X8_output_extends_witness :
  LogItemParser_init sample_lines None
  = inr (parser_at sample_lines [] None init_attrs)
  /\ LogItemParser_init (sample_lines ++ two_records) None
     = inr (parser_at (sample_lines ++ two_records) [] None init_attrs)
  /\ exists q q' e e' k,
       parse_log (parser_at sample_lines [] None init_attrs) = Some (q, e)
       /\ parse_log
            (parser_at (sample_lines ++ two_records) [] None init_attrs)
          = Some (q', e')
       /\ _fout q' = (_fout q ++ k)%list
       /\ (e <> Py.NoMoreItems -> e' = e /\ k = []).
Proof.
  assert (H1 : LogItemParser_init sample_lines None
               = inr (parser_at sample_lines [] None init_attrs))
    by reflexivity.
  assert (H2 : LogItemParser_init (sample_lines ++ two_records) None
     = inr (parser_at (sample_lines ++ two_records) [] None init_attrs))
    by reflexivity.
  split; [exact H1|]. split; [exact H2|].
  exact (X8_output_extends sample_lines two_records None _ _ H1 H2).
Defined.

(** ** One line, one matcher *)

Lemma search_bol p s : Re.search (Re.Bol :: p) s = Re.match_here p true s.
Proof.
  unfold Re.search. destruct s as [|c s]; cbn [Re.search_from Re.match_here].
  - by destruct (Re.match_here p true "").
  - destruct (Re.match_here p true (String c s)); [done|].
    apply search_from_bol_false.
Qed.

Lemma match_here_lit c p b s gs :
  Re.match_here (Re.Lit c :: p) b s = Some gs ->
  exists s', s = String c s' /\ Re.match_here p false s' = Some gs.
Proof.
  cbn [Re.match_here]. destruct s as [|d s]; [done|].
  destruct (Ascii.eqb_spec c d) as [->|]; [eauto | done].
Qed.

(** The two PIMPLE patterns part at their ninth character. *)
Lemma conv_not_notconv line gs :
  Re.search re_conv line = Some gs -> Re.search re_notconv line = None.
Proof.
  unfold re_conv, re_notconv. rewrite !search_bol. intros H.
  do 9 (apply match_here_lit in H as (? & -> & H)).
  reflexivity.
Qed.

Ltac other_pattern E1 :=
  first [ eapply search_first_char; [|exact E1]; done
        | eapply conv_not_notconv; exact E1 ].

(** X9: the seven patterns exclude each other: no line is matched by
    two matchers of the parser, so the order of the list decides
    nothing but when the loop stops. *)
Theorem X9_patterns_exclusive fin rout p r1 r2 line :
  LogItemParser_init fin rout = inr p ->
  r1 ∈ _line_regexps p -> r2 ∈ _line_regexps p ->
  matches (_re r1) line = true ->
  matches (_re r2) line = true ->
  r1 = r2.
Proof.
  rewrite init_ok. intros [= <-]. cbn [_line_regexps parser_at].
  change line_regexps
    with [r_end; r_courant; r_deltaT; r_time; r_cont; r_conv; r_notconv].
  unfold matches. intros H1 H2.
  destruct (Re.search (_re r1) line) as [g1|] eqn:E1; [intros _|done].
  destruct (Re.search (_re r2) line) as [g2|] eqn:E2; [intros _|done].
  repeat (apply elem_of_cons in H1 as [->|H1]);
    [..|by apply elem_of_nil in H1];
    (repeat (apply elem_of_cons in H2 as [->|H2]);
     [..|by apply elem_of_nil in H2]);
    try reflexivity; exfalso;
    match type of E1 with
    | Re.search ?a line = _ =>
        match type of E2 with
        | Re.search ?b line = _ =>
            first [ assert (E3 : Re.search b line = None)
                      by (other_pattern E1);
                    rewrite E3 in E2; discriminate E2
                  | assert (E3 : Re.search a line = None)
                      by (other_pattern E2);
                    rewrite E3 in E1; discriminate E1 ]
        end
    end.
Qed.

Lemma X9_patterns_exclusive_witness :
  let self := parser_at [] [] None init_attrs in
  LogItemParser_init [] None = inr self
  /\ r_time ∈ _line_regexps self
  /\ matches (_re r_time) ("Time = 0.1" +:+ nl) = true
  /\ r_time = r_time.
Proof.
  intros self.
  assert (H1 : LogItemParser_init [] None = inr self) by reflexivity.
  assert (H2 : r_time ∈ _line_regexps self).
  { change (_line_regexps self)
      with [r_end; r_courant; r_deltaT; r_time; r_cont; r_conv; r_notconv].
    do 3 apply list_elem_of_further. apply list_elem_of_here. }
  assert (H3 : matches (_re r_time) ("Time = 0.1" +:+ nl) = true)
    by reflexivity.
  split; [exact H1|]. split; [exact H2|]. split; [exact H3|].
  exact (X9_patterns_exclusive [] None self r_time r_time _ H1 H2 H2 H3 H3).
Defined.

(** ** Attributes by name *)




(** X11: the two names that do not read back.  Setting [time_index]
    raises [AttributeError] and leaves the parser as it was; after
    setting [not_converged] to [v], both [converged] and [not_converged]
    read as [not v]. *)
Theorem X11_read_only_and_negated v (self : LogItemParser) :
  Py.set "time_index" v self = (self, inl Py.AttributeError)
  /\ exists self',
       Py.setattr "not_converged" v self = inr self'
       /\ Py.getattr "converged" self'
          = inr (Py.Bool (negb (Py.truthy v)))
       /\ Py.getattr "not_converged" self'
          = inr (Py.Bool (negb (Py.truthy v))).
Proof.
  split; [reflexivity|].
  eexists. split; [reflexivity|].
  change (Py.getattr ?n (with_attrs ?d self)) with (Py.getattr n d).
  rewrite !getattr_eq.
  cbn [assoc properties String.eqb Ascii.eqb Bool.eqb].
  unfold dict_get. by rewrite lookup_insert_eq.
Qed.

(** ** A matcher that was checked *)





(** ** The end of a line *)

Lemma at_end_newline s :
  no_newline s = true -> Re.at_end (s +:+ nl) = Re.at_end s.
Proof.
  destruct s as [|c s]; [done|]. cbn [no_newline].
  intros [Hc _]%andb_true_iff. apply negb_true_iff in Hc.
  change (String c s +:+ nl) with (String c (s +:+ nl)).
  cbn [Re.at_end]. destruct s as [|d s]; [|done].
  change ("" +:+ nl) with nl. unfold nl. by rewrite Hc.
Qed.

Lemma cls_mem_newline k : Re.cls_mem k Re.newline = false.
Proof. by destruct k. Qed.

(** A pattern that ends in [$] and names no newline matches a string
    without newlines as it matches that string and a newline. *)
Lemma match_here_newline p :
  forallb plain_tok p = true ->
  forall b s,
    no_newline s = true ->
    Re.match_here (p ++ [Re.Eol])%list b (s +:+ nl)
    = Re.match_here (p ++ [Re.Eol])%list b s.
Proof.
  induction p as [|t p IH]; intros Hp b s Hs.
  - cbn [app Re.match_here]. by rewrite at_end_newline.
  - cbn [forallb] in Hp. apply andb_true_iff in Hp as [Ht Hp].
    specialize (IH Hp). cbn [app]. destruct t as [| |c|k].
    + cbn [Re.match_here]. destruct b; [by apply IH | done].
    + cbn [Re.match_here]. rewrite at_end_newline by done.
      destruct (Re.at_end s); [by apply IH | done].
    + cbn [plain_tok] in Ht. apply negb_true_iff in Ht.
      destruct s as [|d s].
      * change ("" +:+ nl) with (String Re.newline "").
        cbn [Re.match_here]. by rewrite Ht.
      * cbn [no_newline] in Hs. apply andb_true_iff in Hs as [_ Hs].
        change (String d s +:+ nl) with (String d (s +:+ nl)).
        cbn [Re.match_here]. destruct (Ascii.eqb c d); [by apply IH | done].
    + cbn [Re.match_here].
      match goal with
      | |- match ?g (s +:+ nl) with _ => _ end = _ => set (G0 := g)
      end.
      assert (Hunf : forall c s,
                 G0 (String c s)
                 = if Re.cls_mem k c then
                     match G0 s with
                     | Some (cap, gs) => Some (String c cap, gs)
                     | None =>
                         match Re.match_here (p ++ [Re.Eol])%list false s with
                         | Some gs => Some (String c EmptyString, gs)
                         | None => None
                         end
                     end
                   else None) by reflexivity.
      assert (G : forall s, no_newline s = true -> G0 (s +:+ nl) = G0 s).
      { clear s Hs. induction s as [|c s IHs]; intros Hs.
        - change ("" +:+ nl) with (String Re.newline "").
          by rewrite Hunf, cls_mem_newline.
        - cbn [no_newline] in Hs. apply andb_true_iff in Hs as [_ Hs].
          change (String c s +:+ nl) with (String c (s +:+ nl)).
          by rewrite !Hunf, (IHs Hs), (IH false s Hs). }
      by rewrite (G s Hs).
Qed.

Lemma search_newline p :
  forallb plain_tok p = true ->
  forall s,
    no_newline s = true ->
    Re.search (Re.Bol :: p ++ [Re.Eol])%list (s +:+ nl)
    = Re.search (Re.Bol :: p ++ [Re.Eol])%list s.
Proof.
  intros Hp s Hs. rewrite !search_bol. by apply match_here_newline.
Qed.

(** X13: the newline that ends a line decides nothing: each of the
    seven patterns matches a line without its newline as it matches the
    line with it, with the same groups.  So the last line of a log
    counts whether or not the file ends in a newline. *)
Theorem X13_final_newline fin rout p r s :
  LogItemParser_init fin rout = inr p ->
  r ∈ _line_regexps p ->
  no_newline s = true ->
  Re.search (_re r) (s +:+ nl) = Re.search (_re r) s.
Proof.
  rewrite init_ok. intros [= <-]. cbn [_line_regexps parser_at].
  change line_regexps
    with [r_end; r_courant; r_deltaT; r_time; r_cont; r_conv; r_notconv].
  intros Hr Hs.
  repeat (apply elem_of_cons in Hr as [->|Hr]);
    [..|by apply elem_of_nil in Hr].
  - exact (search_newline (removelast (tl re_end)) eq_refl s Hs).
  - exact (search_newline (removelast (tl re_courant)) eq_refl s Hs).
  - exact (search_newline (removelast (tl re_deltaT)) eq_refl s Hs).
  - exact (search_newline (removelast (tl re_time)) eq_refl s Hs).
  - exact (search_newline (removelast (tl re_cont)) eq_refl s Hs).
  - exact (search_newline (removelast (tl re_conv)) eq_refl s Hs).
  - exact (search_newline (removelast (tl re_notconv)) eq_refl s Hs).
Qed.

Lemma X13_final_newline_witness :
  let self := parser_at [] [] None init_attrs in
  LogItemParser_init [] None = inr self
  /\ r_end ∈ _line_regexps self
  /\ no_newline "ExecutionTime = 12.3 s  ClockTime = 13.1 s" = true
  /\ Re.search (_re r_end)
       ("ExecutionTime = 12.3 s  ClockTime = 13.1 s" +:+ nl)
     = Re.search (_re r_end) "ExecutionTime = 12.3 s  ClockTime = 13.1 s".
Proof.
  intros self.
  assert (H1 : LogItemParser_init [] None = inr self) by reflexivity.
  assert (H2 : r_end ∈ _line_regexps self).
  { change (_line_regexps self)
      with [r_end; r_courant; r_deltaT; r_time; r_cont; r_conv; r_notconv].
    apply list_elem_of_here. }
  assert (H3 : no_newline "ExecutionTime = 12.3 s  ClockTime = 13.1 s"
               = true) by reflexivity.
  split; [exact H1|]. split; [exact H2|]. split; [exact H3|].
  exact (X13_final_newline [] None self r_end _ H1 H2 H3).
Defined.

(** ** Lines that end in a carriage return *)

Lemma append_snoc_inj (a b : string) c d :
  a +:+ String c "" = b +:+ String d "" -> a = b /\ c = d.
Proof.
  revert b. induction a as [|x a IH]; intros [|y b] H.
  - by injection H as ->.
  - change (String c "" = String y (b +:+ String d "")) in H.
    injection H as _ H. by destruct b.
  - change (String x (a +:+ String c "") = String d "") in H.
    injection H as _ H. by destruct a.
  - change (String x (a +:+ String c "") = String y (b +:+ String d ""))
      in H.
    injection H as -> H. apply IH in H as [-> ->]. done.
Qed.

(** What a pattern that ends in [c$] matches ends in [c], or in [c] and
    a newline. *)
Lemma match_here_tail c p : forall b t gs,
  Re.match_here (p ++ [Re.Lit c; Re.Eol])%list b t = Some gs ->
  exists u, t = u +:+ String c "" \/ t = u +:+ String c nl.
Proof.
  induction p as [|x p IH]; intros b t gs.
  - cbn [app Re.match_here]. destruct t as [|d t]; [done|].
    destruct (Ascii.eqb_spec c d) as [<-|]; [|done].
    destruct t as [|e [|? ?]]; cbn [Re.at_end]; [| |done].
    + intros _. exists "". by left.
    + destruct (Ascii.eqb_spec e Re.newline) as [->|]; [|done].
      intros _. exists "". by right.
  - cbn [app]. destruct x as [| |d|k]; cbn [Re.match_here].
    + destruct b; [apply IH | done].
    + destruct (Re.at_end t); [apply IH | done].
    + destruct t as [|e t]; [done|].
      destruct (Ascii.eqb d e); [|done].
      intros H. apply IH in H as [u [-> | ->]];
        exists (String e u); [by left | by right].
    + match goal with
      | |- match ?g t with _ => _ end = _ -> _ => set (G0 := g)
      end.
      assert (Hunf : forall c0 s,
                 G0 (String c0 s)
                 = if Re.cls_mem k c0 then
                     match G0 s with
                     | Some (cap, gs) => Some (String c0 cap, gs)
                     | None =>
                         match Re.match_here (p ++ [Re.Lit c; Re.Eol])%list
                                 false s with
                         | Some gs => Some (String c0 EmptyString, gs)
                         | None => None
                         end
                     end
                   else None) by reflexivity.
      assert (G : forall s r,
                 G0 s = Some r ->
                 exists u, s = u +:+ String c "" \/ s = u +:+ String c nl).
      { induction s as [|c0 s IHs]; intros r; [done|].
        rewrite Hunf. destruct (Re.cls_mem k c0); [|done].
        destruct (G0 s) as [[cap gs0]|].
        - intros _. destruct (IHs _ eq_refl) as [u [-> | ->]];
            exists (String c0 u); [by left | by right].
        - destruct (Re.match_here _ false s) as [gs0|] eqn:E; [|done].
          intros _. apply IH in E as [u [-> | ->]];
            exists (String c0 u); [by left | by right]. }
      destruct (G0 t) as [[cap gs0]|] eqn:E; [|done].
      intros _. by apply G in E.
Qed.

Lemma search_tail_crlf c p s :
  c <> cr -> c <> Re.newline ->
  Re.search (Re.Bol :: p ++ [Re.Lit c; Re.Eol])%list (s +:+ crlf) = None.
Proof.
  intros Hc Hn. rewrite search_bol.
  destruct (Re.match_here _ true (s +:+ crlf)) as [gs|] eqn:E; [|done].
  apply match_here_tail in E as [u [E | E]]; exfalso.
  - change (s +:+ crlf) with (s +:+ String cr (String Re.newline "")) in E.
    change (String cr (String Re.newline ""))
      with (String cr "" +:+ String Re.newline "") in E.
    rewrite <- append_assoc in E.
    apply append_snoc_inj in E as [_ E]. by apply Hn.
  - change (s +:+ crlf) with (s +:+ String cr (String Re.newline "")) in E.
    change (String cr (String Re.newline ""))
      with (String cr "" +:+ String Re.newline "") in E.
    change (String c nl) with (String c "" +:+ String Re.newline "") in E.
    rewrite <- !append_assoc in E.
    apply append_snoc_inj in E as [E _].
    apply append_snoc_inj in E as [_ E]. by apply Hc.
Qed.

(** X14: a log whose lines end in a carriage return and a newline gets
    no row at all.  The marker pattern asks for [ s] right before the end
    of the line, and finds the carriage return there; so no record is
    ever completed, the table is the header line alone, and the run ends
    normally. *)
Theorem X14_crlf_log_has_no_rows fin rout p :
  LogItemParser_init fin rout = inr p ->
  Forall (fun l => exists s, l = s +:+ crlf) fin ->
  exists q,
    parse_log p = Some (q, Py.NoMoreItems)
    /\ _fout q = [header +:+ nl].
Proof.
  intros Hp Hf.
  assert (Hn : Forall (fun l => is_end l = false) fin).
  { eapply Forall_impl; [exact Hf|]. intros l [s ->].
    unfold is_end, matches.
    change re_end
      with (Re.Bol :: removelast (removelast (tl re_end))
                      ++ [Re.Lit "s"; Re.Eol])%list.
    by rewrite search_tail_crlf by done. }
  destruct (parse_log_trace _ _ _ Hp) as (q & Hq & Ho).
  rewrite (trace_from_no_end _ _ Hn) in Hq, Ho.
  by exists q.
Qed.

Lemma X14_crlf_log_witness :
  let fin := ["Courant Number mean: 1 max: 2" +:+ crlf;
              "ExecutionTime = 1 s  ClockTime = 2 s" +:+ crlf] in
  LogItemParser_init fin None = inr (parser_at fin [] None init_attrs)
  /\ Forall (fun l => exists s, l = s +:+ crlf) fin
  /\ exists q,
       parse_log (parser_at fin [] None init_attrs)
       = Some (q, Py.NoMoreItems)
       /\ _fout q = [header +:+ nl].
Proof.
  intros fin.
  assert (H1 : LogItemParser_init fin None
               = inr (parser_at fin [] None init_attrs)) by reflexivity.
  assert (H2 : Forall (fun l => exists s, l = s +:+ crlf) fin)
    by (repeat constructor; eexists; reflexivity).
  split; [exact H1|]. split; [exact H2|].
  exact (X14_crlf_log_has_no_rows fin None _ H1 H2).
Defined.

(** ** What the columns hold *)

(** Each group of a match holds one character or more, all of its
    class. *)
Lemma match_here_captures p : forall b s gs,
  Re.match_here p b s = Some gs ->
  Forall2 captured_by (group_classes p) gs.
Proof.
  induction p as [|t p IH]; intros b s gs.
  - cbn [Re.match_here]. intros [= <-]. constructor.
  - destruct t as [| |c|k]; cbn [Re.match_here group_classes].
    + destruct b; [apply IH | done].
    + destruct (Re.at_end s); [apply IH | done].
    + destruct s as [|d s]; [done|].
      destruct (Ascii.eqb c d); [apply IH | done].
    + match goal with
      | |- match ?g s with _ => _ end = _ -> _ => set (G0 := g)
      end.
      assert (Hunf : forall c0 s,
                 G0 (String c0 s)
                 = if Re.cls_mem k c0 then
                     match G0 s with
                     | Some (cap, gs) => Some (String c0 cap, gs)
                     | None =>
                         match Re.match_here p false s with
                         | Some gs => Some (String c0 EmptyString, gs)
                         | None => None
                         end
                     end
                   else None) by reflexivity.
      assert (G : forall s1 cap gs',
                 G0 s1 = Some (cap, gs') ->
                 captured_by k cap
                 /\ Forall2 captured_by (group_classes p) gs').
      { induction s1 as [|c0 s0 IHs]; intros cap gs'; [done|].
        rewrite Hunf. destruct (Re.cls_mem k c0) eqn:Hk; [|done].
        destruct (G0 s0) as [[cap0 gs0]|].
        - intros [= <- <-]. destruct (IHs _ _ eq_refl) as [[_ Ha] Hg].
          split; [|done]. split; [done|]. cbn [all_in]. by rewrite Hk, Ha.
        - destruct (Re.match_here p false s0) as [gs0|] eqn:E; [|done].
          intros [= <- <-]. split; [|by eapply IH].
          split; [done|]. cbn [all_in]. by rewrite Hk. }
      destruct (G0 s) as [[cap gs']|] eqn:E; [|done].
      intros [= <-]. apply G in E as [Hc Hg]. by constructor.
Qed.

Lemma search_captures p s gs :
  Re.search (Re.Bol :: p) s = Some gs ->
  Forall2 captured_by (group_classes p) gs.
Proof. rewrite search_bol. apply match_here_captures. Qed.

Lemma grp_captured p i k line g :
  group_classes p !! i = Some k ->
  grp (Re.Bol :: p) i line = Some g ->
  captured_by k g.
Proof.
  intros Hk. unfold grp.
  destruct (Re.search (Re.Bol :: p) line) as [gs|] eqn:E; [|done].
  intros [= <-]. apply search_captures in E.
  destruct (Forall2_lookup_l _ _ _ _ _ E Hk) as (g & Hg & Hc).
  by rewrite (nth_lookup_Some _ _ _ _ Hg).
Qed.

Lemma last_capture_captured p i k h g :
  group_classes p !! i = Some k ->
  last_capture (Re.Bol :: p) i h = Some g ->
  captured_by k g.
Proof.
  intros Hk Hl. unfold last_capture in Hl.
  apply last_Some_elem_of, list_elem_of_omap in Hl as (line & _ & Hg).
  by eapply grp_captured.
Qed.

Lemma last_niter_captured h g :
  last (omap niter_of h) = Some g -> captured_by Re.Digit g.
Proof.
  intros Hl.
  apply last_Some_elem_of, list_elem_of_omap in Hl as (line & _ & Hg).
  unfold niter_of in Hg.
  destruct (grp re_notconv 0 line) as [g'|] eqn:E.
  - injection Hg as ->.
    by apply (grp_captured (tl re_notconv) 0 Re.Digit line).
  - by apply (grp_captured (tl re_conv) 0 Re.Digit line).
Qed.

(** X15: the iterations column is always a number: in every data row
    it is the default -1 or a capture of [\d+], one decimal digit or
    more. *)
Theorem X15_niterations_is_digits fin rout p p' e i row :
  LogItemParser_init fin rout = inr p ->
  parse_log p = Some (p', e) ->
  _fout p' !! S i = Some row ->
  exists vs v,
    row = format_row vs /\ length vs = 12%nat /\ vs !! 8%nat = Some v
    /\ (v = Py.Int (-1)
        \/ exists g, v = Py.Str g /\ captured_by Re.Digit g).
Proof.
  intros Hi Hp Hrow.
  destruct (emitted_row_char _ _ _ _ _ _ _ Hi Hp Hrow)
    as (pre & m & rest & mx & gs & -> & He & Hc & _ & Hs & ->).
  do 2 eexists. split; [reflexivity|]. split; [done|]. split; [done|].
  destruct (last (omap niter_of pre)) as [g|] eqn:E; [|by left].
  right. exists g. split; [done|]. by apply (last_niter_captured pre).
Qed.

Lemma X15_niterations_witness :
  LogItemParser_init sample_lines None
  = inr (parser_at sample_lines [] None init_attrs)
  /\ parse_log (parser_at sample_lines [] None init_attrs)
     = Some (sample_final, Py.NoMoreItems)
  /\ _fout sample_final !! 1%nat
     = Some ("1 0.1 0.001 0.05 0.3 1e-6 2e-6 3e-6 4 1 12.3 13.1" +:+ nl)
  /\ exists vs v,
       "1 0.1 0.001 0.05 0.3 1e-6 2e-6 3e-6 4 1 12.3 13.1" +:+ nl
       = format_row vs
       /\ length vs = 12%nat /\ vs !! 8%nat = Some v
       /\ (v = Py.Int (-1)
           \/ exists g, v = Py.Str g /\ captured_by Re.Digit g).
Proof.
  assert (H1 : LogItemParser_init sample_lines None
               = inr (parser_at sample_lines [] None init_attrs))
    by reflexivity.
  assert (H2 : parse_log (parser_at sample_lines [] None init_attrs)
               = Some (sample_final, Py.NoMoreItems))
    by (vm_compute; reflexivity).
  assert (H3 : _fout sample_final !! 1%nat
     = Some ("1 0.1 0.001 0.05 0.3 1e-6 2e-6 3e-6 4 1 12.3 13.1" +:+ nl))
    by reflexivity.
  split; [exact H1|]. split; [exact H2|]. split; [exact H3|].
  exact (X15_niterations_is_digits _ _ _ _ _ _ _ H1 H2 H3).
Defined.

(** ** The table is made of lines *)

Lemma no_newline_append a b :
  no_newline (a +:+ b) = no_newline a && no_newline b.
Proof.
  induction a as [|c a IH]; [done|].
  change (String c a +:+ b) with (String c (a +:+ b)).
  cbn [no_newline]. by rewrite IH, andb_assoc.
Qed.

Lemma no_newline_pretty_N_go x : forall s,
  no_newline s = true -> no_newline (pretty_N_go x s) = true.
Proof.
  induction (N.lt_wf_0 x) as [x _ IH]; intros s Hs.
  destruct (decide (x = 0)%N) as [->|Hx]; [by rewrite pretty_N_go_0|].
  rewrite pretty_N_go_step by lia. apply IH.
  - apply N.div_lt; lia.
  - cbn [no_newline]. rewrite Hs, andb_true_r.
    unfold pretty_N_char.
    by repeat (case_match; try done).
Qed.

Lemma no_newline_pretty_Z (z : Z) : no_newline (pretty z) = true.
Proof.
  assert (HN : forall n : N, no_newline (pretty n) = true).
  { intros n. unfold pretty, pretty_N.
    destruct (decide (n = 0)%N); [done|].
    by apply no_newline_pretty_N_go. }
  destruct z as [|x|x]; [done|apply (HN (N.pos x))|].
  change (pretty (Z.neg x)) with ("-" +:+ pretty (N.pos x)).
  rewrite no_newline_append. by rewrite (HN (N.pos x)).
Qed.

Lemma captured_no_newline k g :
  captured_by k g -> no_newline g = true.
Proof.
  intros [_ H]. induction g as [|c g IH]; [done|].
  cbn [all_in no_newline] in *. apply andb_true_iff in H as [Hc Hg].
  rewrite (IH Hg), andb_true_r. destruct k; [done|].
  unfold Re.cls_mem in Hc.
  destruct (Ascii.eqb_spec c Re.newline) as [->|]; done.
Qed.

Lemma no_newline_concat l :
  Forall (fun s => no_newline s = true) l ->
  no_newline (String.concat " " l) = true.
Proof.
  induction 1 as [|s l Hs _ IH]; [done|].
  cbn [String.concat]. destruct l as [|s' l]; [done|].
  change (no_newline (s +:+ " " +:+ String.concat " " (s' :: l)) = true).
  by rewrite !no_newline_append, Hs, IH.
Qed.

Lemma or_default_no_newline p i k dflt h :
  group_classes p !! i = Some k ->
  no_newline (Py.str dflt) = true ->
  no_newline (Py.str (or_default dflt (last_capture (Re.Bol :: p) i h)))
  = true.
Proof.
  intros Hk Hd.
  destruct (last_capture (Re.Bol :: p) i h) as [g|] eqn:E; [|done].
  eapply captured_no_newline, last_capture_captured; eauto.
Qed.

(** X16: the table is made of whole lines: every string the parser
    writes, the header and each data row, is one line: it ends in a
    newline and has no other newline in it, whatever the log holds. *)
Theorem X16_every_write_is_a_line fin rout p p' e (k : nat) chunk :
  LogItemParser_init fin rout = inr p ->
  parse_log p = Some (p', e) ->
  _fout p' !! k = Some chunk ->
  exists body, chunk = body +:+ nl /\ no_newline body = true.
Proof.
  intros Hi Hp Hk. destruct k as [|i].
  - destruct (parse_log_trace _ _ _ Hi) as (q & Hq & Ho).
    rewrite Hp in Hq. injection Hq as <- _. rewrite Ho in Hk.
    injection Hk as <-. by exists header.
  - destruct (emitted_row_char _ _ _ _ _ _ _ Hi Hp Hk)
      as (pre & m & rest & mx & gs & -> & He & Hc & Hmx & Hs & ->).
    eexists. split; [reflexivity|]. apply no_newline_concat.
    pose proof (search_captures (tl re_end) m gs Hs) as Hg.
    change (group_classes (tl re_end)) with [Re.AnyChar; Re.AnyChar] in Hg.
    destruct gs as [|g0 [|g1 [|]]];
      try (by repeat match goal with H : Forall2 _ _ _ |- _ =>
                       inversion H; clear H; subst end).
    apply Forall2_cons in Hg as [Hg0 Hg].
    apply Forall2_cons in Hg as [Hg1 _].
    cbn [map]. repeat apply Forall_cons_2; [..|apply Forall_nil_2].
    + apply no_newline_pretty_Z.
    + by apply (or_default_no_newline (tl re_time) 0 Re.AnyChar).
    + by apply (or_default_no_newline (tl re_deltaT) 0 Re.AnyChar).
    + by apply (or_default_no_newline (tl re_courant) 0 Re.AnyChar).
    + eapply captured_no_newline.
      by apply (last_capture_captured (tl re_courant) 1 Re.AnyChar pre).
    + by apply (or_default_no_newline (tl re_cont) 0 Re.AnyChar).
    + by apply (or_default_no_newline (tl re_cont) 1 Re.AnyChar).
    + by apply (or_default_no_newline (tl re_cont) 2 Re.AnyChar).
    + destruct (last (omap niter_of pre)) as [g|] eqn:E; [|done].
      eapply captured_no_newline. by apply (last_niter_captured pre).
    + by destruct (default false (last (omap conv_of pre))).
    + by eapply captured_no_newline.
    + by eapply captured_no_newline.
Qed.

Lemma X16_every_write_witness :
  LogItemParser_init two_records None
  = inr (parser_at two_records [] None init_attrs)
  /\ parse_log (parser_at two_records [] None init_attrs)
     = Some (two_records_final, Py.NoMoreItems)
  /\ _fout two_records_final !! 2%nat
     = Some ("2 0.1 -1 1 2 -1 -1 -1 -1 0 3 4" +:+ nl)
  /\ exists body,
       "2 0.1 -1 1 2 -1 -1 -1 -1 0 3 4" +:+ nl = body +:+ nl
       /\ no_newline body = true.
Proof.
  assert (H1 : LogItemParser_init two_records None
               = inr (parser_at two_records [] None init_attrs))
    by reflexivity.
  assert (H2 : parse_log (parser_at two_records [] None init_attrs)
               = Some (two_records_final, Py.NoMoreItems))
    by (vm_compute; reflexivity).
  assert (H3 : _fout two_records_final !! 2%nat
               = Some ("2 0.1 -1 1 2 -1 -1 -1 -1 0 3 4" +:+ nl))
    by reflexivity.
  split; [exact H1|]. split; [exact H2|]. split; [exact H3|].
  exact (X16_every_write_is_a_line _ _ _ _ _ _ _ H1 H2 H3).
Defined.

(** ** postprocess.py: which folders are cases *)

Section FoamCases.

Import Postprocess.

Lemma node_nested_ind (P : node -> Prop) :
  P File ->
  (forall es, Forall (fun e => P e.2) es -> P (Dir es)) ->
  forall n, P n.
Proof.
  intros HF HD. fix IH 1. intros [|es]; [exact HF|].
  apply HD. induction es as [|[d c] es IHes]; constructor; [apply IH | exact IHes].
Qed.

Lemma folder_at_dir top n root es :
  folder_at top n root es -> isdir n = true.
Proof. by destruct 1. Qed.

(** The triples of [walk] are the directories at and under its top. *)
Lemma walk_elem n : forall top root dirs files,
  (root, dirs, files) ∈ walk top n
  <-> exists es,
        folder_at top n root es
        /\ dirs = List.filter (fun e => isdir e.2) es
        /\ files = map fst (List.filter (fun e => negb (isdir e.2)) es).
Proof.
  induction n as [|names IH] using node_nested_ind; intros top root dirs files.
  - cbn [walk]. split; [by intros ?%elem_of_nil|].
    intros (es & H & _). inversion H.
  - cbn [walk].
    match goal with
    | |- _ ∈ _ :: ?b names <-> _ => set (below := b)
    end.
    assert (Hb : forall es,
               Forall (fun e : string * node =>
                 forall top root dirs files,
                   (root, dirs, files) ∈ walk top e.2
                   <-> exists es0,
                         folder_at top e.2 root es0
                         /\ dirs = List.filter (fun e => isdir e.2) es0
                         /\ files = map fst
                              (List.filter (fun e => negb (isdir e.2)) es0))
                 es ->
               (root, dirs, files) ∈ below es
               <-> exists d c es0,
                     (d, c) ∈ es /\ folder_at (join top d) c root es0
                     /\ dirs = List.filter (fun e => isdir e.2) es0
                     /\ files = map fst
                          (List.filter (fun e => negb (isdir e.2)) es0)).
    { induction 1 as [|[d c] es Hc _ IHes].
      - split; [by intros ?%elem_of_nil|].
        intros (d & c & es0 & H & _). by apply elem_of_nil in H.
      - change (below ((d, c) :: es))
          with ((if isdir c then walk (join top d) c else []) ++ below es)%list.
        rewrite elem_of_app, IHes. cbn [snd] in Hc. split.
        + intros [H|(d' & c' & es0 & Hin & H)].
          * destruct (isdir c); [|by apply elem_of_nil in H].
            apply Hc in H as (es0 & H1 & H2). exists d, c, es0.
            split; [apply list_elem_of_here | done].
          * exists d', c', es0. split; [by apply list_elem_of_further | done].
        + intros (d' & c' & es0 & Hin & Hf & H).
          apply elem_of_cons in Hin as [[= -> ->]|Hin].
          * left. rewrite (folder_at_dir _ _ _ _ Hf). apply Hc. eauto.
          * right. exists d', c', es0. eauto. }
    rewrite elem_of_cons, (Hb names IH). split.
    + intros [[= -> -> ->]|(d & c & es0 & Hin & Hf & H)].
      * exists names. split; [constructor | done].
      * exists es0. split; [by econstructor | done].
    + intros (es0 & Hf & -> & ->). inversion Hf; subst.
      * by left.
      * right. eauto 10.
Qed.

Lemma cases_in_elem root dirs p :
  p ∈ cases_in root dirs
  <-> exists d c,
        (d, c) ∈ dirs /\ exists_in c "system" = true /\ p = join root d.
Proof.
  induction dirs as [|[d c] dirs IH]; cbn [cases_in].
  - split; [by intros ?%elem_of_nil|].
    intros (d & c & H & _). by apply elem_of_nil in H.
  - rewrite elem_of_app, IH. split.
    + intros [H|(d' & c' & Hin & H)].
      * destruct (exists_in c "system") eqn:E; [|by apply elem_of_nil in H].
        apply list_elem_of_singleton in H as ->.
        exists d, c. split; [apply list_elem_of_here | done].
      * exists d', c'. split; [by apply list_elem_of_further | done].
    + intros (d' & c' & Hin & He & ->).
      apply elem_of_cons in Hin as [[= -> ->]|Hin].
      * left. rewrite He. apply list_elem_of_here.
      * right. eauto.
Qed.

(** X17: the folders [_foam_cases] reports are exactly the
    sub-directories, at any depth under the given path, that have an
    entry named [system] (a folder or a file): each is reported by the
    path [os.walk] builds for it.  The given path itself is never
    reported, and a case that lies inside another case is. *)
Theorem X17_foam_cases_are_folders_with_system path n p :
  p ∈ _foam_cases path n
  <-> exists root es d c,
        folder_at path n root es
        /\ (d, c) ∈ es /\ isdir c = true
        /\ exists_in c "system" = true
        /\ p = join root d.
Proof.
  unfold _foam_cases. rewrite list_elem_of_In, in_flat_map. split.
  - intros ([[root dirs] files] & Hw & Hp).
    apply list_elem_of_In, walk_elem in Hw as (es & Hf & -> & _).
    apply list_elem_of_In, cases_in_elem in Hp as (d & c & Hin & He & ->).
    apply list_elem_of_In, filter_In in Hin as [Hin Hd].
    exists root, es, d, c. by rewrite list_elem_of_In.
  - intros (root & es & d & c & Hf & Hin & Hd & He & ->).
    exists (root, List.filter (fun e => isdir e.2) es,
            map fst (List.filter (fun e => negb (isdir e.2)) es)).
    split.
    + apply list_elem_of_In, walk_elem. eauto.
    + apply list_elem_of_In, cases_in_elem. exists d, c.
      split; [|done]. apply list_elem_of_In, filter_In.
      by rewrite <- list_elem_of_In.
Qed.

Example foam_cases_sample_tree :
  _foam_cases "." sample_tree = ["./a"; "./a/sub"].
Proof. reflexivity. Qed.

End FoamCases.
